(** * Content moderation pipeline: a shallow embedding and its properties

    The development follows the TypeScript sources
    - [src/types/content_moderation.ts]   (enums and records),
    - [src/constants/notifications.ts]    (message constants),
    - [src/services/profanity_detector.ts], [sentiment_analyzer.ts],
      [toxicity_detector.ts], [spam_detector.ts],
      [personal_info_detector.ts], [rule_engine.ts],
    - [src/services/moderation_engine.ts] (the coordinator).

    Conventions.
    - A JavaScript [number] is an IEEE-754 binary64 value: Rocq's primitive
      [float], with the same rounding, so that [0.4 + 0.2] is not [0.6] here
      either.
    - A JavaScript string is the sequence of its UTF-16 code units; the model
      covers code units below 256, one [ascii] each.
    - Third-party packages ([bad-words], [sentiment]) and the regular
      expression engine are not part of the repository: they are the fields
      of the record [Libs], over which every definition is parametric.
    - [async]/[await] is sequential here: every awaited call is a plain call.
    - A [throw] is the [Err] branch of [Result]. *)

From Stdlib Require Import ZArith List Bool Ascii String Lia.
From Stdlib Require Import Floats DecimalString.
From Stdlib Require Uint63.
Import ListNotations.

Set Warnings "-inexact-float".
#[local] Open Scope string_scope.
#[local] Open Scope bool_scope.

(** ** JavaScript strings *)

Module JsString.

Definition code (c : ascii) : N := N_of_ascii c.

(** [/[A-Z]/] *)
Definition is_upper_AZ (c : ascii) : bool :=
  (65 <=? code c)%N && (code c <=? 90)%N.

(** WhiteSpace and LineTerminator code units below 256: what
    [String.prototype.trim] strips and what [\s] matches. *)
Definition is_space (c : ascii) : bool :=
  let n := code c in
  ((9 <=? n)%N && (n <=? 13)%N) || (n =? 32)%N || (n =? 160)%N.

(** [toLowerCase] on one code unit below 256: A-Z, and the Latin-1
    capitals U+00C0..U+00DE except the multiplication sign U+00D7. *)
Definition lower_char (c : ascii) : ascii :=
  let n := code c in
  if is_upper_AZ c then ascii_of_N (n + 32)
  else if (192 <=? n)%N && (n <=? 222)%N && negb (n =? 215)%N
       then ascii_of_N (n + 32)
       else c.

Fixpoint toLowerCase (s : string) : string :=
  match s with
  | EmptyString => EmptyString
  | String c s' => String (lower_char c) (toLowerCase s')
  end.

Fixpoint startsWith (s p : string) : bool :=
  match p, s with
  | EmptyString, _ => true
  | String _ _, EmptyString => false
  | String a p', String b s' => Ascii.eqb a b && startsWith s' p'
  end.

Fixpoint includes (s sub : string) : bool :=
  startsWith s sub ||
  match s with
  | EmptyString => false
  | String _ s' => includes s' sub
  end.

Definition rev (s : string) : string :=
  string_of_list_ascii (List.rev (list_ascii_of_string s)).

Definition endsWith (s p : string) : bool := startsWith (rev s) (rev p).

(** [s.slice(1, -1)] *)
Definition slice_1_m1 (s : string) : string :=
  substring 1 (String.length s - 2) s.

Fixpoint trimStart (s : string) : string :=
  match s with
  | EmptyString => EmptyString
  | String c s' => if is_space c then trimStart s' else s
  end.

Definition trim (s : string) : string := rev (trimStart (rev (trimStart s))).

(** [s.length] as an integer. *)
Definition len (s : string) : Z := Z.of_nat (String.length s).

(** [(s.match(/c/g) || []).length] for a one-character class [p]. *)
Fixpoint count_chars (p : ascii -> bool) (s : string) : nat :=
  match s with
  | EmptyString => 0
  | String c s' => (if p c then 1 else 0) + count_chars p s'
  end.

(** [s.split(/\s+/)]: [in_sep] holds while a separator run is being
    skipped, [cur] is the piece read so far. *)
Fixpoint split_ws_from (in_sep : bool) (cur : string) (s : string)
  : list string :=
  match s with
  | EmptyString => [cur]
  | String c s' =>
      if is_space c
      then if in_sep then split_ws_from true EmptyString s'
           else cur :: split_ws_from true EmptyString s'
      else split_ws_from false (cur ++ String c EmptyString) s'
  end.

Definition split_ws (s : string) : list string :=
  split_ws_from false EmptyString s.

(** [xs.join(sep)] *)
Fixpoint join (sep : string) (xs : list string) : string :=
  match xs with
  | [] => EmptyString
  | [x] => x
  | x :: rest => x ++ sep ++ join sep rest
  end.

(** [`${n}`] for a non-negative integer. *)
Definition of_nat (n : nat) : string :=
  NilZero.string_of_uint (Nat.to_uint n).

(** The double-quote character, for template literals that contain it. *)
Definition dquote : string := String (ascii_of_N 34) EmptyString.

(** [[...new Set(xs)]]: first occurrences, in order. *)
Fixpoint dedupe_from (seen : list string) (xs : list string) : list string :=
  match xs with
  | [] => []
  | x :: rest =>
      if existsb (String.eqb x) seen then dedupe_from seen rest
      else x :: dedupe_from (x :: seen) rest
  end.

Definition dedupe (xs : list string) : list string := dedupe_from [] xs.

End JsString.

(** ** JavaScript numbers *)

Module JsNumber.

#[local] Open Scope float_scope.

(** An integer count as a number (counts here are far below 2^53). *)
Definition of_nat (n : nat) : float := of_uint63 (Uint63.of_Z (Z.of_nat n)).

Definition is_neg_zero (x : float) : bool :=
  PrimFloat.is_zero x && PrimFloat.get_sign x.

(** [Math.max(a, b)]: NaN if either is NaN, and [+0] above [-0]. *)
Definition Math_max (a b : float) : float :=
  if PrimFloat.is_nan a || PrimFloat.is_nan b then nan
  else if a <? b then b
  else if b <? a then a
  else if is_neg_zero a then b else a.

(** [Math.min(a, b)]: NaN if either is NaN, and [-0] below [+0]. *)
Definition Math_min (a b : float) : float :=
  if PrimFloat.is_nan a || PrimFloat.is_nan b then nan
  else if a <? b then a
  else if b <? a then b
  else if is_neg_zero b then b else a.

Definition Math_abs (x : float) : float := abs x.

(** [a > b] *)
Definition gt (a b : float) : bool := b <? a.


End JsNumber.

Import JsString JsNumber.

(** ** Data model ([src/types/content_moderation.ts]) *)

Inductive ContentType := TEXT | IMAGE | VIDEO | AUDIO.

Inductive SeverityLevel := LOW | MEDIUM | HIGH | CRITICAL.

Inductive PlatformType :=
  TWITTER | FACEBOOK | INSTAGRAM | LINKEDIN | TIKTOK | YOUTUBE.

(** The run-time value of each enum member. *)
Definition ContentType_value (t : ContentType) : string :=
  match t with
  | TEXT => "text" | IMAGE => "image" | VIDEO => "video" | AUDIO => "audio"
  end.

Definition PlatformType_value (p : PlatformType) : string :=
  match p with
  | TWITTER => "twitter" | FACEBOOK => "facebook" | INSTAGRAM => "instagram"
  | LINKEDIN => "linkedin" | TIKTOK => "tiktok" | YOUTUBE => "youtube"
  end.

(** [Object.values(ContentType)] and [Object.values(PlatformType)]. *)
Definition ContentType_values : list string :=
  map ContentType_value [TEXT; IMAGE; VIDEO; AUDIO].

Definition PlatformType_values : list string :=
  map PlatformType_value [TWITTER; FACEBOOK; INSTAGRAM; LINKEDIN; TIKTOK; YOUTUBE].

Definition SeverityLevel_eqb (a b : SeverityLevel) : bool :=
  match a, b with
  | LOW, LOW | MEDIUM, MEDIUM | HIGH, HIGH | CRITICAL, CRITICAL => true
  | _, _ => false
  end.

(** A request as it arrives from the JSON body: [content_type] and [platform]
    are whatever strings the caller sent, which is why [validate_request]
    has something to check. *)
Record ContentModerationRequest := {
  content : string;
  content_type : string;
  platform : string;
  user_id : option string;
  metadata : option (list (string * string))
}.

Record ModerationFlag := {
  type : string;
  severity : SeverityLevel;
  confidence : float;
  description : string;
  flagged_text : option string;
  suggestion : option string
}.

Record ContentModerationResponse := {
  is_flagged : bool;
  flags : list ModerationFlag;
  overall_severity : SeverityLevel;
  confidence_score : float;
  safe_to_post : bool;
  recommendations : list string;
  processing_time_ms : Z
}.

Record ModerationRule := {
  rule_id : string;
  rule_name : string;
  rule_description : string;
  rule_patterns : list string;
  rule_severity : SeverityLevel;
  rule_enabled : bool;
  rule_platforms : list PlatformType
}.

Record ModerationConfig := {
  rules : list ModerationRule;
  sensitivity_threshold : float;
  enable_sentiment_analysis : bool;
  enable_profanity_detection : bool;
  enable_toxicity_detection : bool;
  enable_spam_detection : bool;
  enable_hate_speech_detection : bool;
  enable_violence_detection : bool;
  enable_sexual_content_detection : bool;
  enable_personal_info_detection : bool
}.

Record SentimentAnalysisResult := {
  score : float;
  comparative : float;
  tokens : list string;
  words : list string;
  positive : list string;
  negative : list string
}.

Record ProfanityCheckResult := {
  is_profane : bool;
  profane_words : list string;
  clean_text : string
}.

(** [categories : Record<string, number>] always has these four keys. *)
Record ToxicityCategories := {
  general_toxicity : float;
  hate_speech : float;
  violence : float;
  sexual_content : float
}.

Record ToxicityCheckResult := {
  is_toxic : bool;
  toxicity_score : float;
  categories : ToxicityCategories
}.

Record SpamCheckResult := {
  is_spam : bool;
  spam_score : float;
  spam_indicators : list string;
  clean_content : string
}.

Record PersonalInfoCheckResult := {
  has_personal_info : bool;
  pii_confidence : float;
  detected_info : list string;
  info_types : list string
}.

(** A call either returns or throws an [Error] with a message. *)
Inductive Result (A : Type) : Type :=
| Ok (a : A)
| Err (message : string).
Arguments Ok {A} a.
Arguments Err {A} message.

Definition bind {A B : Type} (r : Result A) (k : A -> Result B) : Result B :=
  match r with
  | Ok a => k a
  | Err m => Err m
  end.

Notation "x <- r ;; k" := (bind r (fun x => k))
  (at level 61, r at next level, right associativity).

(** ** Constants ([src/constants/notifications.ts]) *)

Module NOTIFICATION_MESSAGES.
Definition CONTENT_SAFE := "Content appears to be safe for posting".
Definition PROFANITY_DETECTED := "Profanity detected in content".
Definition TOXICITY_DETECTED := "Toxic content detected".
Definition PERSONAL_INFO_DETECTED := "Personal information detected".
Definition SPAM_DETECTED := "Spam-like content detected".
Definition NEGATIVE_SENTIMENT := "Content has negative sentiment".
Definition RECOMMEND_REVIEW := "Please review content before posting".
Definition RECOMMEND_EDIT := "Consider editing content to remove flagged elements".
Definition RECOMMEND_REPLACE := "Consider replacing flagged content".
Definition CHARACTER_LIMIT := "Content exceeds character limit".
Definition HASHTAG_LIMIT := "Too many hashtags detected".
Definition MENTION_LIMIT := "Too many mentions detected".
Definition MODERATION_FAILED := "Content moderation failed".
Definition CONTENT_TOO_LONG := "Content is too long for analysis".
Definition CONTENT_EMPTY := "Content cannot be empty".
Definition INVALID_CONTENT_TYPE := "Invalid content type specified".
Definition INVALID_PLATFORM := "Invalid platform specified".
End NOTIFICATION_MESSAGES.

(** ** What the repository imports from outside

    - [BadWordsFilter]: the filter class of the [bad-words] package, with its
      constructor, [removeWords] and [clean].
    - [Sentiment]: the analyzer class of the [sentiment] package, with its
      constructor, [registerLanguage] (language code and labels) and
      [analyze].
    - [regexp_compiles src]: [new RegExp(src, flags)] does not throw.
    - [regexp_match_all src ignore_case s]: [s.match(re)] for the global
      regular expression with that source, [[]] standing for [null]; a
      regular expression without the [g] flag [test]s true exactly when this
      list is not empty.
    - [regexp_replace_all src s by]: [s.replace(re, by)] for a global [re].

    These calls are taken to return: the model has no case for a package
    that throws. *)
Record Libs := {
  BadWordsFilter : Type;
  BadWordsFilter_new : BadWordsFilter;
  removeWords : BadWordsFilter -> list string -> BadWordsFilter;
  clean : BadWordsFilter -> string -> string;
  Sentiment : Type;
  Sentiment_new : Sentiment;
  registerLanguage : Sentiment -> string -> list (string * Z) -> Sentiment;
  sentiment_analyze : Sentiment -> string -> SentimentAnalysisResult;
  regexp_compiles : string -> bool;
  regexp_match_all : string -> bool -> string -> list string;
  regexp_replace_all : string -> string -> string -> string
}.

Record RegExp := { source : string; ignore_case : bool }.

(** [new RegExp(src, flags)] *)
Definition new_RegExp (L : Libs) (src : string) (i : bool) : Result RegExp :=
  if regexp_compiles L src then Ok {| source := src; ignore_case := i |}
  else Err ("Invalid regular expression: /" ++ src ++ "/").

(** [s.match(re)] for a global [re]: [None] is [null]. *)
Definition String_match (L : Libs) (s : string) (re : RegExp)
  : option (list string) :=
  match regexp_match_all L (source re) (ignore_case re) s with
  | [] => None
  | ms => Some ms
  end.

(** [re.test(s)] for a [re] without the [g] flag. *)
Definition RegExp_test (L : Libs) (re : RegExp) (s : string) : bool :=
  match regexp_match_all L (source re) (ignore_case re) s with
  | [] => false
  | _ => true
  end.

(** A regular-expression literal of the source text. *)
Definition re (src : string) : RegExp := {| source := src; ignore_case := false |}.
Definition re_i (src : string) : RegExp := {| source := src; ignore_case := true |}.

(** [xs.push(x)] and [xs.push(...ys)] on an array held in a local variable. *)
Definition push {A : Type} (xs : list A) (x : A) : list A := (xs ++ [x])%list.
Definition push_all {A : Type} (xs ys : list A) : list A := (xs ++ ys)%list.

(** ** ProfanityDetector ([src/services/profanity_detector.ts]) *)

Module ProfanityDetector.

Definition setup_custom_words (L : Libs) (filter : BadWordsFilter L)
  : BadWordsFilter L :=
  let filter :=
    removeWords L filter ["hell"; "damn"; "ass"; "bitch"; "piss"; "shit"] in
  removeWords L filter
    ["analytics"; "analysis"; "assistant"; "class"; "function"].

(** The constructor: the detector's only field is its filter. *)
Definition new (L : Libs) : BadWordsFilter L :=
  setup_custom_words L (BadWordsFilter_new L).

Definition common_profane : list string :=
  ["fuck"; "shit"; "bitch"; "ass"; "damn"; "hell"].

Definition check (L : Libs) (content : string) : ProfanityCheckResult :=
  let clean_content := clean L (new L) content in
  let is_profane := negb (String.eqb clean_content content) in
  let profane_words :=
    if is_profane
    then fold_left
           (fun acc word =>
              if includes (toLowerCase content) word then push acc word
              else acc)
           common_profane []
    else [] in
  {| is_profane := is_profane;
     profane_words := profane_words;
     clean_text := clean_content |}.

End ProfanityDetector.

(** ** SentimentAnalyzer ([src/services/sentiment_analyzer.ts]) *)

Module SentimentAnalyzer.

#[local] Open Scope float_scope.

Definition custom_labels : list (string * Z) :=
  [ ("innovative", 2); ("successful", 2); ("growth", 2); ("opportunity", 2);
    ("solution", 1); ("improve", 1); ("excellent", 2); ("amazing", 2);
    ("great", 1); ("good", 1); ("positive", 1); ("benefit", 1);
    ("advantage", 1); ("efficient", 1); ("effective", 1); ("reliable", 1);
    ("secure", 1); ("fast", 1); ("easy", 1); ("simple", 1) ]%Z.

Definition setup_custom_analysis (L : Libs) (analyzer : Sentiment L)
  : Sentiment L :=
  registerLanguage L analyzer "en" custom_labels.

(** The constructor: the analyzer is the object's only field. *)
Definition new (L : Libs) : Sentiment L :=
  setup_custom_analysis L (Sentiment_new L).

Definition analyze (L : Libs) (content : string) : SentimentAnalysisResult :=
  let result := sentiment_analyze L (new L) content in
  {| score := score result;
     comparative := comparative result;
     tokens := tokens result;
     words := words result;
     positive := positive result;
     negative := negative result |}.

Definition get_sentiment_confidence (score : float) : float :=
  Math_min (Math_abs score / 10) 1.0.

Definition get_sentiment_category (score : float) : string :=
  if gt score 2 then "very_positive"
  else if gt score 0 then "positive"
  else if score =? 0 then "neutral"
  else if gt score (-2) then "negative"
  else "very_negative".

Definition is_overly_negative (score : float) : bool := score <? -3.

Definition is_overly_positive (score : float) : bool := gt score 5.

End SentimentAnalyzer.

(** ** ToxicityDetector ([src/services/toxicity_detector.ts]) *)

Module ToxicityDetector.

#[local] Open Scope float_scope.

Definition toxic_patterns : list (string * float) :=
  [ ("kill yourself", 0.9); ("you should die", 0.9); ("i hope you die", 0.9);
    ("go to hell", 0.7); ("fuck you", 0.8); ("you are stupid", 0.6);
    ("you are dumb", 0.6); ("you are an idiot", 0.7); ("shut up", 0.5);
    ("nobody cares", 0.5); ("you are worthless", 0.8);
    ("you are useless", 0.7) ].

Definition hate_speech_patterns : list string :=
  [ "all [a-z]+ are"; "every [a-z]+ is"; "typical [a-z]+"; "you people";
    "those people"; "go back to"; "you don't belong"; "you are not welcome" ].

Definition violence_patterns : list string :=
  [ "i will kill"; "i want to kill"; "i should kill"; "punch you"; "hit you";
    "beat you"; "attack you"; "hurt you"; "destroy you"; "burn you";
    "shoot you"; "stab you" ].

Definition sexual_content_patterns : list string :=
  [ "nude"; "naked"; "porn"; "sex"; "sexual"; "intimate"; "explicit";
    "adult content"; "mature content" ].

(** The two variables the loops of [check] update. *)
Record State := {
  cats : ToxicityCategories;
  max_toxicity_score : float
}.

Definition raise_general (st : State) (c : float) : State :=
  let k := cats st in
  {| cats := {| general_toxicity := Math_max (general_toxicity k) c;
                hate_speech := hate_speech k;
                violence := violence k;
                sexual_content := sexual_content k |};
     max_toxicity_score := Math_max (max_toxicity_score st) c |}.

Definition raise_hate_speech (st : State) (c : float) : State :=
  let k := cats st in
  {| cats := {| general_toxicity := general_toxicity k;
                hate_speech := Math_max (hate_speech k) c;
                violence := violence k;
                sexual_content := sexual_content k |};
     max_toxicity_score := Math_max (max_toxicity_score st) c |}.

Definition raise_violence (st : State) (c : float) : State :=
  let k := cats st in
  {| cats := {| general_toxicity := general_toxicity k;
                hate_speech := hate_speech k;
                violence := Math_max (violence k) c;
                sexual_content := sexual_content k |};
     max_toxicity_score := Math_max (max_toxicity_score st) c |}.

Definition raise_sexual_content (st : State) (c : float) : State :=
  let k := cats st in
  {| cats := {| general_toxicity := general_toxicity k;
                hate_speech := hate_speech k;
                violence := violence k;
                sexual_content := Math_max (sexual_content k) c |};
     max_toxicity_score := Math_max (max_toxicity_score st) c |}.

Definition init : State :=
  {| cats := {| general_toxicity := 0; hate_speech := 0;
                violence := 0; sexual_content := 0 |};
     max_toxicity_score := 0 |}.

Definition check (L : Libs) (content : string) : ToxicityCheckResult :=
  let lower_content := toLowerCase content in
  let st := init in
  (* general toxic patterns *)
  let st :=
    fold_left
      (fun st (pc : string * float) =>
         let (pattern, confidence) := pc in
         if includes lower_content pattern then raise_general st confidence
         else st)
      toxic_patterns st in
  (* hate speech patterns *)
  let st :=
    fold_left
      (fun st pattern =>
         if RegExp_test L (re_i pattern) content
         then raise_hate_speech st 0.8 else st)
      hate_speech_patterns st in
  (* violence patterns *)
  let st :=
    fold_left
      (fun st pattern =>
         if includes lower_content pattern then raise_violence st 0.9
         else st)
      violence_patterns st in
  (* sexual content patterns *)
  let st :=
    fold_left
      (fun st pattern =>
         if includes lower_content pattern
         then raise_sexual_content st 0.7 else st)
      sexual_content_patterns st in
  (* excessive caps (shouting) *)
  let caps_ratio :=
    JsNumber.of_nat (count_chars is_upper_AZ content)
    / JsNumber.of_nat (String.length content) in
  let st :=
    if gt caps_ratio 0.7 && (10 <? len content)%Z
    then raise_general st 0.3 else st in
  (* excessive punctuation *)
  let exclamation_count := count_chars (Ascii.eqb "!") content in
  let question_count := count_chars (Ascii.eqb "?") content in
  let st :=
    if (3 <? exclamation_count)%nat || (5 <? question_count)%nat
    then raise_general st 0.2 else st in
  {| is_toxic := gt (max_toxicity_score st) 0.5;
     toxicity_score := max_toxicity_score st;
     categories := cats st |}.

End ToxicityDetector.

(** ** SpamDetector ([src/services/spam_detector.ts]) *)

Module SpamDetector.

#[local] Open Scope float_scope.

(** [spam_patterns], in insertion order. *)
Definition spam_patterns : list (string * float) :=
  [ ("buy now", 0.7); ("limited time offer", 0.8); ("act now", 0.7);
    ("don't miss out", 0.6); ("click here", 0.6); ("free money", 0.9);
    ("make money fast", 0.9); ("work from home", 0.7);
    ("earn money online", 0.8); ("get rich quick", 0.9);
    ("lose weight fast", 0.8); ("miracle cure", 0.9);
    ("100% guaranteed", 0.8); ("no risk", 0.7); ("limited supply", 0.7);
    ("exclusive offer", 0.6); ("secret method", 0.8);
    ("government secret", 0.9); ("bankruptcy", 0.7); ("debt relief", 0.7);
    ("credit repair", 0.7); ("investment opportunity", 0.6);
    ("hot singles", 0.9); ("meet singles", 0.8); ("enlarge your", 0.9);
    ("viagra", 0.9); ("cialis", 0.9) ].

Definition url_patterns : list RegExp :=
  [ re "https?:\/\/[^\s]+"; re "www\.[^\s]+"; re "bit\.ly\/[^\s]+";
    re "tinyurl\.com\/[^\s]+"; re "goo\.gl\/[^\s]+" ].

Definition suspicious_patterns : list RegExp :=
  [ re "\d{4}-\d{4}-\d{4}-\d{4}"; re "\d{3}-\d{2}-\d{4}"; re "\d{10,}";
    re "[A-Z]{5,}"; re "\$\d+"; re "%\d+"; re_i "free\s+[a-z]+";
    re_i "limited\s+time"; re_i "act\s+now"; re_i "click\s+here";
    re_i "buy\s+now" ].

Definition count_urls (L : Libs) (content : string) : nat :=
  fold_left
    (fun url_count pattern =>
       match String_match L content pattern with
       | Some matches => (url_count + List.length matches)%nat
       | None => url_count
       end)
    url_patterns 0%nat.

Definition has_suspicious_patterns (L : Libs) (content : string) : bool :=
  existsb (fun pattern => RegExp_test L pattern content) suspicious_patterns.

Definition clean_content_of (L : Libs) (content : string) : string :=
  let clean_content :=
    fold_left
      (fun clean_content pattern =>
         regexp_replace_all L (source pattern) clean_content "[URL]")
      url_patterns content in
  let clean_content := regexp_replace_all L "!{2,}" clean_content "!" in
  let clean_content := regexp_replace_all L "\?{2,}" clean_content "?" in
  trim clean_content.

(** [Map<string, number>], iterated in insertion order; [set] on a key
    already present keeps its place. *)
Definition WordMap := list (string * nat).

Fixpoint map_get (m : WordMap) (k : string) : option nat :=
  match m with
  | [] => None
  | (k', v) :: m' => if String.eqb k' k then Some v else map_get m' k
  end.

Fixpoint map_set (m : WordMap) (k : string) (v : nat) : WordMap :=
  match m with
  | [] => [(k, v)]
  | (k', v') :: m' =>
      if String.eqb k' k then (k, v) :: m' else (k', v') :: map_set m' k v
  end.

Definition count_words (words : list string) : WordMap :=
  fold_left
    (fun word_frequency word =>
       if (3 <? String.length word)%nat
       then map_set word_frequency word
              (match map_get word_frequency word with
               | Some n => n
               | None => 0
               end + 1)%nat
       else word_frequency)
    words [].

(** [spam_score] and [spam_indicators] while [check] runs. *)
Record State := {
  acc_score : float;
  acc_indicators : list string
}.

Definition add (st : State) (amount : float) (indicator : string) : State :=
  {| acc_score := acc_score st + amount;
     acc_indicators := push (acc_indicators st) indicator |}.

Definition check (L : Libs) (content : string) : SpamCheckResult :=
  let lower_content := toLowerCase content in
  let st := {| acc_score := 0; acc_indicators := [] |} in
  (* spam phrases *)
  let st :=
    fold_left
      (fun st (pc : string * float) =>
         let (pattern, confidence) := pc in
         if includes lower_content pattern
         then add st confidence
                ("Spam phrase: " ++ dquote ++ pattern ++ dquote)
         else st)
      spam_patterns st in
  (* excessive URLs *)
  let url_count := count_urls L content in
  let st :=
    if (2 <? url_count)%nat
    then add st (0.5 * JsNumber.of_nat url_count)
           ("Multiple URLs detected: " ++ JsString.of_nat url_count)
    else st in
  (* excessive caps *)
  let caps_ratio :=
    JsNumber.of_nat (count_chars is_upper_AZ content)
    / JsNumber.of_nat (String.length content) in
  let st :=
    if gt caps_ratio 0.5 && (20 <? len content)%Z
    then add st 0.4 "Excessive capitalization" else st in
  (* excessive punctuation *)
  let exclamation_count := count_chars (Ascii.eqb "!") content in
  let question_count := count_chars (Ascii.eqb "?") content in
  let st :=
    if (2 <? exclamation_count)%nat || (3 <? question_count)%nat
    then add st 0.3 "Excessive punctuation" else st in
  (* repetitive words *)
  let words := split_ws (toLowerCase content) in
  let word_frequency := count_words words in
  let st :=
    fold_left
      (fun st (wc : string * nat) =>
         let (word, count) := wc in
         if (3 <? count)%nat
         then add st 0.2
                ("Repetitive word: " ++ dquote ++ word ++ dquote ++ " ("
                 ++ JsString.of_nat count ++ " times)")
         else st)
      word_frequency st in
  (* suspicious patterns *)
  let st :=
    if has_suspicious_patterns L content
    then add st 0.6 "Suspicious patterns detected" else st in
  (* normalise *)
  let spam_score := Math_min (acc_score st) 1.0 in
  {| is_spam := gt spam_score 0.6;
     spam_score := spam_score;
     spam_indicators := acc_indicators st;
     clean_content := clean_content_of L content |}.

End SpamDetector.

(** ** PersonalInfoDetector ([src/services/personal_info_detector.ts]) *)

Module PersonalInfoDetector.

#[local] Open Scope float_scope.

Definition email_pattern : RegExp :=
  re "\b[A-Za-z0-9._%+-]+@[A-Za-z0-9.-]+\.[A-Z|a-z]{2,}\b".

Definition phone_patterns : list RegExp :=
  [ re "\b\d{3}[-.]?\d{3}[-.]?\d{4}\b";
    re "\b\(\d{3}\)\s?\d{3}[-.]?\d{4}\b";
    re "\b\+\d{1,3}\s?\d{3}[-.]?\d{3}[-.]?\d{4}\b";
    re "\b\d{10,11}\b" ].

Definition ssn_pattern : RegExp := re "\b\d{3}-\d{2}-\d{4}\b".

Definition credit_card_pattern : RegExp :=
  re "\b\d{4}[- ]?\d{4}[- ]?\d{4}[- ]?\d{4}\b".

Definition address_patterns : list RegExp :=
  [ re_i "\b\d+\s+[A-Za-z\s]+(?:Street|St|Avenue|Ave|Road|Rd|Boulevard|Blvd|Lane|Ln|Drive|Dr)\b";
    re_i "\b[A-Za-z\s]+(?:Street|St|Avenue|Ave|Road|Rd|Boulevard|Blvd|Lane|Ln|Drive|Dr)\s+\d+\b" ].

Definition name_patterns : list RegExp :=
  [ re "\b[A-Z][a-z]+\s+[A-Z][a-z]+\b";
    re "\b[A-Z][a-z]+\s+[A-Z][a-z]+\s+[A-Z][a-z]+\b" ].

Definition personal_keywords : list string :=
  [ "password"; "pin"; "account number"; "routing number";
    "date of birth"; "birthday"; "ssn"; "social security";
    "driver license"; "passport"; "id number" ].

(** The three variables [check] updates. *)
Record State := {
  acc_detected : list string;
  acc_types : list string;
  acc_confidence : float
}.

(** One pattern whose info type is pushed without an [includes] test. *)
Definition scan_once (L : Libs) (content : string) (pattern : RegExp)
           (kind : string) (c : float) (st : State) : State :=
  match String_match L content pattern with
  | Some found =>
      {| acc_detected := push_all (acc_detected st) found;
         acc_types := push (acc_types st) kind;
         acc_confidence := Math_max (acc_confidence st) c |}
  | None => st
  end.

(** One pattern of a loop, where the info type is pushed only when it
    is not there yet. *)
Definition scan_listed (L : Libs) (content : string) (kind : string)
           (c : float) (st : State) (pattern : RegExp) : State :=
  match String_match L content pattern with
  | Some found =>
      {| acc_detected := push_all (acc_detected st) found;
         acc_types :=
           if existsb (String.eqb kind) (acc_types st) then acc_types st
           else push (acc_types st) kind;
         acc_confidence := Math_max (acc_confidence st) c |}
  | None => st
  end.

Definition scan_name (L : Libs) (content : string) (st : State)
           (pattern : RegExp) : State :=
  match String_match L content pattern with
  | Some names =>
      if (1 <? List.length names)%nat
         || (0 <? List.length (acc_detected st))%nat
      then {| acc_detected := push_all (acc_detected st) names;
              acc_types :=
                if existsb (String.eqb "name") (acc_types st)
                then acc_types st
                else push (acc_types st) "name";
              acc_confidence := Math_max (acc_confidence st) 0.6 |}
      else st
  | None => st
  end.

Definition scan_keyword (content : string) (st : State) (keyword : string)
  : State :=
  if includes (toLowerCase content) keyword
  then {| acc_detected := acc_detected st;
          acc_types := push (acc_types st) "personal_keyword";
          acc_confidence := Math_max (acc_confidence st) 0.5 |}
  else st.

Definition check (L : Libs) (content : string) : PersonalInfoCheckResult :=
  let st := {| acc_detected := []; acc_types := []; acc_confidence := 0 |} in
  let st := scan_once L content email_pattern "email" 0.9 st in
  let st := fold_left (scan_listed L content "phone" 0.8) phone_patterns st in
  let st := scan_once L content ssn_pattern "ssn" 0.95 st in
  let st := scan_once L content credit_card_pattern "credit_card" 0.9 st in
  let st :=
    fold_left (scan_listed L content "address" 0.7) address_patterns st in
  let st := fold_left (scan_name L content) name_patterns st in
  let st := fold_left (scan_keyword content) personal_keywords st in
  {| has_personal_info := (0 <? List.length (acc_detected st))%nat;
     pii_confidence := acc_confidence st;
     detected_info := dedupe (acc_detected st);
     info_types := dedupe (acc_types st) |}.

End PersonalInfoDetector.

(** ** RuleEngine ([src/services/rule_engine.ts]) *)

Module RuleEngine.

#[local] Open Scope float_scope.

(** The engine's only field. *)
Record t := { rules_of : list ModerationRule }.

Definition new (rules : list ModerationRule) : t := {| rules_of := rules |}.

Definition update_rules (_ : t) (new_rules : list ModerationRule) : t :=
  {| rules_of := new_rules |}.

(** [pattern.startsWith('/') && pattern.endsWith('/')] *)
Definition is_regex_delimited (pattern : string) : bool :=
  startsWith pattern "/" && endsWith pattern "/".

(** The body of the [try] block: it throws when the pattern does not
    compile, and otherwise yields [is_match] and [matched_text]. *)
Definition try_regex (L : Libs) (request : ContentModerationRequest)
           (pattern : string) : Result (bool * string) :=
  regex <- new_RegExp L (slice_1_m1 pattern) true ;;
  match String_match L (content request) regex with
  | Some matches => Ok (true, join ", " matches)
  | None => Ok (false, "")
  end.

Definition rule_flag (rule : ModerationRule) (matched_text : string)
  : ModerationFlag :=
  {| type := "custom_rule_" ++ rule_id rule;
     severity := rule_severity rule;
     confidence := 0.8;
     description := rule_description rule;
     flagged_text := Some matched_text;
     suggestion := Some ("Content matches rule: " ++ rule_name rule) |}.

(** One turn of the loop over [rule.patterns].  The [Err] case is the
    [catch] block: a warning on the console, then [continue]. *)
Definition check_pattern (L : Libs) (request : ContentModerationRequest)
           (rule : ModerationRule) (flags : list ModerationFlag)
           (pattern : string) : list ModerationFlag :=
  let lower_content := toLowerCase (content request) in
  let outcome :=
    if is_regex_delimited pattern
    then try_regex L request pattern
    else if includes lower_content (toLowerCase pattern)
         then Ok (true, pattern)
         else Ok (false, "") in
  match outcome with
  | Err _ => flags
  | Ok (is_match, matched_text) =>
      if is_match then push flags (rule_flag rule matched_text) else flags
  end.

Definition check_single_rule (L : Libs) (request : ContentModerationRequest)
           (rule : ModerationRule) : list ModerationFlag :=
  fold_left (check_pattern L request rule) (rule_patterns rule) [].

(** [rule.platforms.includes(request.platform)] *)
Definition platforms_include (rule : ModerationRule) (platform : string)
  : bool :=
  existsb (fun p => String.eqb (PlatformType_value p) platform)
          (rule_platforms rule).

Definition check_rules (L : Libs) (engine : t)
           (request : ContentModerationRequest) : list ModerationFlag :=
  fold_left
    (fun flags rule =>
       if negb (rule_enabled rule) then flags
       else if negb (platforms_include rule (platform request)) then flags
       else push_all flags (check_single_rule L request rule))
    (rules_of engine) [].

(** *** Management operations

    The rules are held in one array.  [get_rule] hands out the element
    itself, so that [enable_rule] and [disable_rule], which assign its
    [enabled] field, change the array in place: here, the first rule with
    the identifier is replaced.  Each operation returns the engine it
    leaves behind, and its result where it has one. *)

Definition add_rule (engine : t) (rule : ModerationRule) : t :=
  {| rules_of := push (rules_of engine) rule |}.

Definition remove_rule (engine : t) (id : string) : t * bool :=
  let initial_length := List.length (rules_of engine) in
  let rules := filter (fun rule => negb (String.eqb (rule_id rule) id))
                      (rules_of engine) in
  ({| rules_of := rules |}, (List.length rules <? initial_length)%nat).

Definition get_rule (engine : t) (id : string) : option ModerationRule :=
  find (fun rule => String.eqb (rule_id rule) id) (rules_of engine).

Definition get_all_rules (engine : t) : list ModerationRule := rules_of engine.

(** [rule.enabled = b] *)
Definition with_enabled (rule : ModerationRule) (b : bool) : ModerationRule :=
  {| rule_id := rule_id rule;
     rule_name := rule_name rule;
     rule_description := rule_description rule;
     rule_patterns := rule_patterns rule;
     rule_severity := rule_severity rule;
     rule_enabled := b;
     rule_platforms := rule_platforms rule |}.

(** The array after [enabled] of the rule that [find] returns is assigned. *)
Fixpoint assign_enabled (rules : list ModerationRule) (id : string) (b : bool)
  : list ModerationRule :=
  match rules with
  | [] => []
  | rule :: rest =>
      if String.eqb (rule_id rule) id then with_enabled rule b :: rest
      else rule :: assign_enabled rest id b
  end.

Definition enable_rule (engine : t) (id : string) : t * bool :=
  match get_rule engine id with
  | Some _ => ({| rules_of := assign_enabled (rules_of engine) id true |}, true)
  | None => (engine, false)
  end.

Definition disable_rule (engine : t) (id : string) : t * bool :=
  match get_rule engine id with
  | Some _ => ({| rules_of := assign_enabled (rules_of engine) id false |}, true)
  | None => (engine, false)
  end.

Definition get_rules_for_platform (engine : t) (platform : PlatformType)
  : list ModerationRule :=
  filter (fun rule => platforms_include rule (PlatformType_value platform))
         (rules_of engine).

Definition get_enabled_rules (engine : t) : list ModerationRule :=
  filter (fun rule => rule_enabled rule) (rules_of engine).

End RuleEngine.

(** ** ModerationEngine ([src/services/moderation_engine.ts]) *)

Module ModerationEngine.

#[local] Open Scope float_scope.
Import NOTIFICATION_MESSAGES.

(** The detectors hold no state that a request can change; the engine's
    state is its configuration and the rule engine's rule set. *)
Record t := {
  config : ModerationConfig;
  rule_engine : RuleEngine.t
}.

Definition new (config : ModerationConfig) : t :=
  {| config := config; rule_engine := RuleEngine.new (rules config) |}.

Definition update_config (engine : t) (new_config : ModerationConfig) : t :=
  {| config := new_config;
     rule_engine :=
       RuleEngine.update_rules (rule_engine engine) (rules new_config) |}.

Definition get_config (engine : t) : ModerationConfig := config engine.

Definition validate_request (request : ContentModerationRequest)
  : Result unit :=
  if String.eqb (content request) ""
     || (String.length (trim (content request)) =? 0)%nat
  then Err CONTENT_EMPTY
  else if (10000 <? len (content request))%Z
  then Err CONTENT_TOO_LONG
  else if negb (existsb (String.eqb (content_type request)) ContentType_values)
  then Err INVALID_CONTENT_TYPE
  else if negb (existsb (String.eqb (platform request)) PlatformType_values)
  then Err INVALID_PLATFORM
  else Ok tt.

Definition platform_flag (type description suggestion : string)
  : ModerationFlag :=
  {| type := type;
     severity := LOW;
     confidence := 1.0;
     description := description;
     flagged_text := None;
     suggestion := Some suggestion |}.

Definition check_platform_rules (request : ContentModerationRequest)
  : list ModerationFlag :=
  let flags := [] in
  if String.eqb (platform request) (PlatformType_value TWITTER) then
    if (280 <? len (content request))%Z
    then push flags (platform_flag "character_limit" CHARACTER_LIMIT
                       "Consider shortening your post")
    else flags
  else if String.eqb (platform request) (PlatformType_value INSTAGRAM) then
    let hashtag_count := count_chars (Ascii.eqb "#") (content request) in
    if (30 <? hashtag_count)%nat
    then push flags (platform_flag "hashtag_limit" HASHTAG_LIMIT
                       "Reduce the number of hashtags")
    else flags
  else if String.eqb (platform request) (PlatformType_value LINKEDIN) then
    let mention_count := count_chars (Ascii.eqb "@") (content request) in
    if (5 <? mention_count)%nat
    then push flags (platform_flag "mention_limit" MENTION_LIMIT
                       "Reduce the number of mentions")
    else flags
  else flags.

Definition severity_scores (s : SeverityLevel) : Z :=
  match s with
  | LOW => 1 | MEDIUM => 2 | HIGH => 3 | CRITICAL => 4
  end.

Definition calculate_overall_severity (flags : list ModerationFlag)
  : SeverityLevel :=
  if (List.length flags =? 0)%nat then LOW
  else
    fold_left
      (fun max flag =>
         if (severity_scores max <? severity_scores (severity flag))%Z
         then severity flag else max)
      flags LOW.

Definition calculate_confidence_score (flags : list ModerationFlag) : float :=
  if (List.length flags =? 0)%nat then 1.0
  else
    let total_confidence :=
      fold_left (fun sum flag => sum + confidence flag) flags 0 in
    total_confidence / JsNumber.of_nat (List.length flags).

Definition determine_safe_to_post (flags : list ModerationFlag)
           (overall_severity : SeverityLevel) : bool :=
  if SeverityLevel_eqb overall_severity CRITICAL
     || SeverityLevel_eqb overall_severity HIGH
  then false
  else true.

Definition TWITTER_TIP :=
  "Consider using Twitter's built-in content warnings for sensitive topics".
Definition INSTAGRAM_TIP :=
  "Use Instagram's content filters and moderation tools".
Definition LINKEDIN_TIP :=
  "Ensure content aligns with LinkedIn's professional community guidelines".

Definition generate_recommendations (flags : list ModerationFlag)
           (platform : string) : list string :=
  let recommendations := [] in
  if (List.length flags =? 0)%nat
  then push recommendations CONTENT_SAFE
  else
    let recommendations :=
      if existsb (fun f => SeverityLevel_eqb (severity f) CRITICAL
                           || SeverityLevel_eqb (severity f) HIGH) flags
      then push recommendations RECOMMEND_REPLACE
      else if existsb (fun f => SeverityLevel_eqb (severity f) MEDIUM) flags
      then push recommendations RECOMMEND_EDIT
      else push recommendations RECOMMEND_REVIEW in
    if String.eqb platform (PlatformType_value TWITTER)
    then push recommendations TWITTER_TIP
    else if String.eqb platform (PlatformType_value INSTAGRAM)
    then push recommendations INSTAGRAM_TIP
    else if String.eqb platform (PlatformType_value LINKEDIN)
    then push recommendations LINKEDIN_TIP
    else recommendations.

(** The flags of the five detectors, each behind its toggle. *)
Definition profanity_flags (L : Libs) (engine : t) (content : string)
  : list ModerationFlag :=
  if enable_profanity_detection (config engine) then
    let profanity_result := ProfanityDetector.check L content in
    if is_profane profanity_result
    then [ {| type := "profanity";
              severity := MEDIUM;
              confidence := 0.9;
              description := PROFANITY_DETECTED;
              flagged_text := Some (join ", " (profane_words profanity_result));
              suggestion := Some RECOMMEND_EDIT |} ]
    else []
  else [].

Definition sentiment_flags (L : Libs) (engine : t) (content : string)
  : list ModerationFlag :=
  if enable_sentiment_analysis (config engine) then
    let sentiment_result := SentimentAnalyzer.analyze L content in
    if comparative sentiment_result <? -0.3
    then [ {| type := "negative_sentiment";
              severity := LOW;
              confidence := Math_abs (comparative sentiment_result);
              description := NEGATIVE_SENTIMENT;
              flagged_text := None;
              suggestion := Some RECOMMEND_REVIEW |} ]
    else []
  else [].

Definition toxicity_flags (L : Libs) (engine : t) (content : string)
  : list ModerationFlag :=
  if enable_toxicity_detection (config engine) then
    let toxicity_result := ToxicityDetector.check L content in
    if is_toxic toxicity_result
    then [ {| type := "toxicity";
              severity := HIGH;
              confidence := toxicity_score toxicity_result;
              description := TOXICITY_DETECTED;
              flagged_text := None;
              suggestion := Some RECOMMEND_REPLACE |} ]
    else []
  else [].

Definition spam_flags (L : Libs) (engine : t) (content : string)
  : list ModerationFlag :=
  if enable_spam_detection (config engine) then
    let spam_result := SpamDetector.check L content in
    if is_spam spam_result
    then [ {| type := "spam";
              severity := MEDIUM;
              confidence := spam_score spam_result;
              description := SPAM_DETECTED;
              flagged_text := None;
              suggestion := Some RECOMMEND_EDIT |} ]
    else []
  else [].

Definition personal_info_flags (L : Libs) (engine : t) (content : string)
  : list ModerationFlag :=
  if enable_personal_info_detection (config engine) then
    let personal_info_result := PersonalInfoDetector.check L content in
    if has_personal_info personal_info_result
    then [ {| type := "personal_info";
              severity := HIGH;
              confidence := pii_confidence personal_info_result;
              description := PERSONAL_INFO_DETECTED;
              flagged_text :=
                Some (join ", " (detected_info personal_info_result));
              suggestion := Some RECOMMEND_EDIT |} ]
    else []
  else [].

(** The [flags] array when the last [push] of [moderate_content] is done. *)
Definition collect_flags (L : Libs) (engine : t)
           (request : ContentModerationRequest) : list ModerationFlag :=
  let flags := [] in
  let flags := push_all flags (profanity_flags L engine (content request)) in
  let flags := push_all flags (sentiment_flags L engine (content request)) in
  let flags := push_all flags (toxicity_flags L engine (content request)) in
  let flags := push_all flags (spam_flags L engine (content request)) in
  let flags :=
    push_all flags (personal_info_flags L engine (content request)) in
  let rule_flags := RuleEngine.check_rules L (rule_engine engine) request in
  let flags := push_all flags rule_flags in
  let platform_flags := check_platform_rules request in
  push_all flags platform_flags.

(** The body of the [try] block.  [start_time] and [end_time] are the two
    readings of [Date.now()]. *)
Definition moderate_content_body (L : Libs) (engine : t)
           (start_time end_time : Z) (request : ContentModerationRequest)
  : Result ContentModerationResponse :=
  _ <- validate_request request ;;
  let flags := collect_flags L engine request in
  let overall_severity := calculate_overall_severity flags in
  let confidence_score := calculate_confidence_score flags in
  let safe_to_post := determine_safe_to_post flags overall_severity in
  let recommendations := generate_recommendations flags (platform request) in
  let processing_time_ms := (end_time - start_time)%Z in
  Ok {| is_flagged := (0 <? List.length flags)%nat;
        flags := flags;
        overall_severity := overall_severity;
        confidence_score := confidence_score;
        safe_to_post := safe_to_post;
        recommendations := recommendations;
        processing_time_ms := processing_time_ms |}.

(** The [catch] block wraps the message of whatever was thrown. *)
Definition moderate_content (L : Libs) (engine : t)
           (start_time end_time : Z) (request : ContentModerationRequest)
  : Result ContentModerationResponse :=
  match moderate_content_body L engine start_time end_time request with
  | Ok response => Ok response
  | Err message => Err (MODERATION_FAILED ++ ": " ++ message)
  end.

End ModerationEngine.

(** ** A reference instance of the imported packages

    Used for the closed examples only; every general theorem below is
    stated for an arbitrary [Libs]. *)

Module Reference.

#[local] Open Scope float_scope.

(** *** The blocklist filter *)

Record Filter := {
  list_of : list string;
  exclude_of : list string
}.

(** A fragment of the package's word list. *)
Definition default_words : list string :=
  ["bastard"; "fuck"; "hell"; "damn"; "ass"; "bitch"; "piss"; "shit"].

Definition Filter_new : Filter :=
  {| list_of := default_words; exclude_of := [] |}.

Definition Filter_removeWords (f : Filter) (ws : list string) : Filter :=
  {| list_of := list_of f;
     exclude_of := (exclude_of f ++ map toLowerCase ws)%list |}.

Definition is_word_char (c : ascii) : bool :=
  let n := code c in
  is_upper_AZ c || ((97 <=? n)%N && (n <=? 122)%N)
  || ((48 <=? n)%N && (n <=? 57)%N) || (n =? 95)%N.

Definition blocked (f : Filter) (w : string) : bool :=
  existsb (String.eqb (toLowerCase w)) (list_of f)
  && negb (existsb (String.eqb (toLowerCase w)) (exclude_of f)).

Fixpoint stars (n : nat) : string :=
  match n with
  | O => EmptyString
  | S n' => String "*" (stars n')
  end.

Definition censor (f : Filter) (w : string) : string :=
  if blocked f w then stars (String.length w) else w.

Fixpoint clean_from (f : Filter) (cur : string) (s : string) : string :=
  match s with
  | EmptyString => censor f cur
  | String c s' =>
      if is_word_char c
      then clean_from f (cur ++ String c EmptyString) s'
      else censor f cur ++ String c (clean_from f EmptyString s')
  end.

(** Modelled from the spec: [clean] of the [bad-words] filter, which is
    not among the sources.  The spec (4.2) has "cleaning the text against
    the blocklist lexicon" as a "case-insensitive whole/partial-word
    substitution"; here every maximal run of word characters that is, in
    lower case, a listed and not excluded word is replaced by asterisks. *)
Definition Filter_clean (f : Filter) (s : string) : string :=
  clean_from f EmptyString s.

(** *** The sentiment analyzer *)

(** A fragment of the package's valence lexicon. *)
Definition base_labels : list (string * Z) :=
  [ ("hate", -3); ("terrible", -3); ("bad", -3); ("love", 3) ]%Z.

Definition Sentiment_registerLanguage (labels : list (string * Z))
           (languageCode : string) (extra : list (string * Z))
  : list (string * Z) :=
  if String.eqb languageCode "en" then (extra ++ labels)%list else labels.

Fixpoint valence (labels : list (string * Z)) (w : string) : option Z :=
  match labels with
  | [] => None
  | (k, v) :: rest => if String.eqb k w then Some v else valence rest w
  end.

Definition Z_to_number (z : Z) : float :=
  if (z <? 0)%Z then - JsNumber.of_nat (Z.to_nat (- z))
  else JsNumber.of_nat (Z.to_nat z).

Definition has_valence (labels : list (string * Z)) (p : Z -> bool)
           (w : string) : bool :=
  match valence labels w with
  | Some v => p v
  | None => false
  end.

(** Modelled from the spec: [analyze] of the [sentiment] package, which
    is not among the sources.  The spec (4.3) has: "Tokenizes text into
    words; scores each token via a valence lexicon (base lexicon plus
    business-positive augmentation terms)", "score = sum of token
    valences; comparative = score / token count (0 if no tokens)".
    Tokens are the non-empty pieces of the lower-cased text between
    white space. *)
Definition Sentiment_analyze (labels : list (string * Z)) (content : string)
  : SentimentAnalysisResult :=
  let tokens :=
    filter (fun w => negb (String.eqb w "")) (split_ws (toLowerCase content)) in
  let total :=
    fold_left
      (fun sum w =>
         match valence labels w with
         | Some v => (sum + v)%Z
         | None => sum
         end)
      tokens 0%Z in
  {| score := Z_to_number total;
     comparative :=
       match tokens with
       | [] => 0
       | _ => Z_to_number total / JsNumber.of_nat (List.length tokens)
       end;
     tokens := tokens;
     words := filter (has_valence labels (fun _ => true)) tokens;
     positive := filter (has_valence labels (fun v => (0 <? v)%Z)) tokens;
     negative := filter (has_valence labels (fun v => (v <? 0)%Z)) tokens |}.

(** *** Regular expressions

    A small engine that knows plain sources only: non-empty sequences of
    letters, digits and spaces, which match as substrings.  For any other
    source it finds nothing; on the texts used in the examples below no
    pattern of the detectors has a match in JavaScript either.  A source
    compiles when its parentheses are balanced. *)

Definition is_plain_char (c : ascii) : bool :=
  let n := code c in
  is_upper_AZ c || ((97 <=? n)%N && (n <=? 122)%N)
  || ((48 <=? n)%N && (n <=? 57)%N) || (n =? 32)%N.

Fixpoint all_chars (p : ascii -> bool) (s : string) : bool :=
  match s with
  | EmptyString => true
  | String c s' => p c && all_chars p s'
  end.

Definition is_plain (src : string) : bool :=
  negb (String.eqb src "") && all_chars is_plain_char src.

Fixpoint balanced (depth : nat) (s : string) : bool :=
  match s with
  | EmptyString => (depth =? 0)%nat
  | String c s' =>
      if Ascii.eqb c "(" then balanced (S depth) s'
      else if Ascii.eqb c ")"
           then match depth with
                | O => false
                | S d => balanced d s'
                end
           else balanced depth s'
  end.

Definition compiles (src : string) : bool := balanced 0 src.

(** Left-to-right, non-overlapping occurrences; [skip] counts the
    characters of the match just taken that are still to be passed. *)
Fixpoint occurrences (src : string) (i : bool) (skip : nat) (s : string)
  : list string :=
  match s with
  | EmptyString => []
  | String _ s' =>
      match skip with
      | S k => occurrences src i k s'
      | O =>
          if (if i then startsWith (toLowerCase s) (toLowerCase src)
              else startsWith s src)
          then substring 0 (String.length src) s
               :: occurrences src i (String.length src - 1) s'
          else occurrences src i 0 s'
      end
  end.

Definition match_all (src : string) (i : bool) (s : string) : list string :=
  if is_plain src then occurrences src i 0 s else [].

Definition replace_all (src : string) (s : string) (_ : string) : string :=
  s.

Definition libs : Libs :=
  {| BadWordsFilter := Filter;
     BadWordsFilter_new := Filter_new;
     removeWords := Filter_removeWords;
     clean := Filter_clean;
     Sentiment := list (string * Z);
     Sentiment_new := base_labels;
     registerLanguage := Sentiment_registerLanguage;
     sentiment_analyze := Sentiment_analyze;
     regexp_compiles := compiles;
     regexp_match_all := match_all;
     regexp_replace_all := replace_all |}.

(** The configuration [index.ts] starts the engine with. *)
Definition default_config : ModerationConfig :=
  {| rules := [];
     sensitivity_threshold := 0.5;
     enable_sentiment_analysis := true;
     enable_profanity_detection := true;
     enable_toxicity_detection := true;
     enable_spam_detection := true;
     enable_hate_speech_detection := true;
     enable_violence_detection := true;
     enable_sexual_content_detection := true;
     enable_personal_info_detection := true |}.

Definition request (content platform : string) : ContentModerationRequest :=
  {| content := content;
     content_type := "text";
     platform := platform;
     user_id := None;
     metadata := None |}.

(** A configuration that differs from [default_config] in the four fields
    the pipeline never reads. *)
Definition other_config : ModerationConfig :=
  {| rules := [];
     sensitivity_threshold := 0.9;
     enable_sentiment_analysis := true;
     enable_profanity_detection := true;
     enable_toxicity_detection := true;
     enable_spam_detection := true;
     enable_hate_speech_detection := false;
     enable_violence_detection := false;
     enable_sexual_content_detection := false;
     enable_personal_info_detection := true |}.

(** The one-word text "hate": one token of valence -3, so that the
    comparative score is -3; no other detector finds anything in it. *)
Definition hate_request : ContentModerationRequest := request "hate" "twitter".

Definition hate_flag : ModerationFlag :=
  {| type := "negative_sentiment";
     severity := LOW;
     confidence := 3;
     description := NOTIFICATION_MESSAGES.NEGATIVE_SENTIMENT;
     flagged_text := None;
     suggestion := Some NOTIFICATION_MESSAGES.RECOMMEND_REVIEW |}.

Definition hate_response : ContentModerationResponse :=
  {| is_flagged := true;
     flags := [hate_flag];
     overall_severity := LOW;
     confidence_score := 3;
     safe_to_post := true;
     recommendations :=
       [NOTIFICATION_MESSAGES.RECOMMEND_REVIEW; ModerationEngine.TWITTER_TIP];
     processing_time_ms := 5 |}.

(** A rule with a literal pattern, a delimited pattern that does not
    compile, and a delimited pattern that does. *)
Definition hate_rule : ModerationRule :=
  {| rule_id := "r1";
     rule_name := "No hate";
     rule_description := "Hateful wording";
     rule_patterns := ["HATE"; "/(/"; "/hat/"; "love"];
     rule_severity := CRITICAL;
     rule_enabled := true;
     rule_platforms := [TWITTER; FACEBOOK] |}.

(** A text in which nothing is found, on a platform without limits. *)
Definition quiet_request : ContentModerationRequest :=
  request "hello world" "facebook".

Definition quiet_response : ContentModerationResponse :=
  {| is_flagged := false;
     flags := [];
     overall_severity := LOW;
     confidence_score := 1;
     safe_to_post := true;
     recommendations := [NOTIFICATION_MESSAGES.CONTENT_SAFE];
     processing_time_ms := 5 |}.

(** A rule whose second pattern is the empty string. *)
Definition careless_rule : ModerationRule :=
  {| rule_id := "r2";
     rule_name := "Careless";
     rule_description := "A rule with an empty pattern";
     rule_patterns := ["love"; ""];
     rule_severity := HIGH;
     rule_enabled := true;
     rule_platforms := [TWITTER] |}.

End Reference.

(** ** The HTTP handlers ([src/index.ts]) *)

Module Server.

Import NOTIFICATION_MESSAGES.


Module ERROR_CODES.
Definition MODERATION_FAILED := "MODERATION_FAILED".
End ERROR_CODES.

Module SUCCESS_CODES.
End SUCCESS_CODES.











End Server.

(** ** The specification's side of the comparisons

    These definitions follow the wording of the specification, not the
    code; the theorems below relate the two. *)

Module Spec.

#[local] Open Scope float_scope.

(** The order LOW < MEDIUM < HIGH < CRITICAL, reflexively closed. *)
Definition severity_le (a b : SeverityLevel) : Prop :=
  match a, b with
  | LOW, _ => True
  | MEDIUM, LOW => False
  | MEDIUM, _ => True
  | HIGH, (HIGH | CRITICAL) => True
  | HIGH, _ => False
  | CRITICAL, CRITICAL => True
  | CRITICAL, _ => False
  end.

(** [s] is the maximum severity among [fs], or LOW when there is none. *)
Definition is_max_severity (s : SeverityLevel) (fs : list ModerationFlag)
  : Prop :=
  match fs with
  | [] => s = LOW
  | _ => (exists f, In f fs /\ severity f = s)
         /\ forall f, In f fs -> severity_le (severity f) s
  end.



(** The severity-tier message of the recommendations. *)
Definition has_severity (fs : list ModerationFlag) (s : SeverityLevel) : Prop :=
  exists f, In f fs /\ severity f = s.

Inductive tier_message (fs : list ModerationFlag) : string -> Prop :=
| tier_replace :
    has_severity fs HIGH \/ has_severity fs CRITICAL ->
    tier_message fs NOTIFICATION_MESSAGES.RECOMMEND_REPLACE
| tier_edit :
    ~ has_severity fs HIGH -> ~ has_severity fs CRITICAL ->
    has_severity fs MEDIUM ->
    tier_message fs NOTIFICATION_MESSAGES.RECOMMEND_EDIT
| tier_review :
    ~ has_severity fs HIGH -> ~ has_severity fs CRITICAL ->
    ~ has_severity fs MEDIUM -> fs <> [] ->
    tier_message fs NOTIFICATION_MESSAGES.RECOMMEND_REVIEW
| tier_safe :
    fs = [] ->
    tier_message fs NOTIFICATION_MESSAGES.CONTENT_SAFE.

(** The fixed tip of a platform, if it has one. *)
Definition platform_tip (platform : string) : option string :=
  if String.eqb platform "twitter" then Some ModerationEngine.TWITTER_TIP
  else if String.eqb platform "instagram"
  then Some ModerationEngine.INSTAGRAM_TIP
  else if String.eqb platform "linkedin"
  then Some ModerationEngine.LINKEDIN_TIP
  else None.

(** *** Spam signals, in the order the specification lists them *)

Definition phrase_signals (content : string) : list float :=
  map snd
      (filter (fun pc : string * float =>
                 includes (toLowerCase content) (fst pc))
              SpamDetector.spam_patterns).

Definition url_signal (L : Libs) (content : string) : list float :=
  let n := SpamDetector.count_urls L content in
  if (2 <? n)%nat then [0.5 * JsNumber.of_nat n] else [].

Definition capitalization_signal (content : string) : list float :=
  if gt (JsNumber.of_nat (count_chars is_upper_AZ content)
         / JsNumber.of_nat (String.length content)) 0.5
     && (20 <? len content)%Z
  then [0.4] else [].

Definition punctuation_signal (content : string) : list float :=
  if (2 <? count_chars (Ascii.eqb "!") content)%nat
     || (3 <? count_chars (Ascii.eqb "?") content)%nat
  then [0.3] else [].

(** Words of more than three characters, in lower case. *)
Definition long_words (content : string) : list string :=
  filter (fun w => (3 <? String.length w)%nat)
         (split_ws (toLowerCase content)).

Definition occurrences (w : string) (ws : list string) : nat :=
  List.length (filter (String.eqb w) ws).

(** The distinct words that occur more than three times. *)
Definition repeated_words (content : string) : list string :=
  filter (fun w => (3 <? occurrences w (long_words content))%nat)
         (dedupe (long_words content)).

Definition repetition_signals (content : string) : list float :=
  map (fun _ => 0.2) (repeated_words content).

Definition suspicious_signal (L : Libs) (content : string) : list float :=
  if SpamDetector.has_suspicious_patterns L content then [0.6] else [].

Definition fired_signals (L : Libs) (content : string) : list float :=
  (phrase_signals content ++ url_signal L content
   ++ capitalization_signal content ++ punctuation_signal content
   ++ repetition_signals content ++ suspicious_signal L content)%list.

(** The sum, taken from left to right starting at 0. *)
Definition sum (xs : list float) : float := fold_left PrimFloat.add xs 0.

(** *** Custom rules *)

(** A rule takes part when it is enabled and lists the request's platform. *)
Definition applies (rule : ModerationRule) (request : ContentModerationRequest)
  : bool :=
  rule_enabled rule
  && existsb (fun p => String.eqb (PlatformType_value p) (platform request))
             (rule_platforms rule).

(** What a pattern matches, if it matches: the joined matches of a
    delimited pattern that compiles, the pattern itself for a literal. *)
Definition pattern_match (L : Libs) (request : ContentModerationRequest)
           (pattern : string) : option string :=
  if RuleEngine.is_regex_delimited pattern then
    if regexp_compiles L (slice_1_m1 pattern) then
      match regexp_match_all L (slice_1_m1 pattern) true (content request) with
      | [] => None
      | ms => Some (join ", " ms)
      end
    else None
  else if includes (toLowerCase (content request)) (toLowerCase pattern)
       then Some pattern
       else None.

Fixpoint flags_of_patterns (L : Libs) (request : ContentModerationRequest)
         (rule : ModerationRule) (patterns : list string)
  : list ModerationFlag :=
  match patterns with
  | [] => []
  | p :: rest =>
      match pattern_match L request p with
      | Some text =>
          {| type := "custom_rule_" ++ rule_id rule;
             severity := rule_severity rule;
             confidence := 0.8;
             description := rule_description rule;
             flagged_text := Some text;
             suggestion := Some ("Content matches rule: " ++ rule_name rule) |}
          :: flags_of_patterns L request rule rest
      | None => flags_of_patterns L request rule rest
      end
  end.

Definition flags_of_rule (L : Libs) (request : ContentModerationRequest)
           (rule : ModerationRule) : list ModerationFlag :=
  if applies rule request
  then flags_of_patterns L request rule (rule_patterns rule)
  else [].

(** *** Configuration *)

(** Two configurations agree on the rules and the five toggles that the
    pipeline consults. *)
Definition same_consulted_fields (c1 c2 : ModerationConfig) : Prop :=
  rules c1 = rules c2
  /\ enable_profanity_detection c1 = enable_profanity_detection c2
  /\ enable_sentiment_analysis c1 = enable_sentiment_analysis c2
  /\ enable_toxicity_detection c1 = enable_toxicity_detection c2
  /\ enable_spam_detection c1 = enable_spam_detection c2
  /\ enable_personal_info_detection c1 = enable_personal_info_detection c2.

(** A response without its [processing_time_ms]. *)
Definition without_time (r : ContentModerationResponse)
  : bool * list ModerationFlag * SeverityLevel * float * bool * list string :=
  (is_flagged r, flags r, overall_severity r, confidence_score r,
   safe_to_post r, recommendations r).

(** *** Platform policy *)

(** Exactly one flag, of the given type, LOW, with confidence 1.0. *)
Definition single_low_flag (fs : list ModerationFlag) (ty : string) : Prop :=
  exists f, fs = [f] /\ type f = ty /\ severity f = LOW /\ confidence f = 1.

(** The message the [catch] block of [moderate_content] throws. *)
Definition failure (reason : string) : string :=
  NOTIFICATION_MESSAGES.MODERATION_FAILED ++ ": " ++ reason.

(** A pattern counts as matching when it yields a matched text. *)
Definition matches (L : Libs) (request : ContentModerationRequest)
           (pattern : string) : bool :=
  match pattern_match L request pattern with
  | Some _ => true
  | None => false
  end.

(** A flag that does not come from the rule [id]. *)
Definition not_of_rule (id : string) (f : ModerationFlag) : bool :=
  negb (String.eqb (type f) ("custom_rule_" ++ id)).

(** *** Toxicity *)

(** What suffices to make a text toxic: a toxic phrase whose confidence is
    above 0.5, a hate-speech template, a violence phrase or a sexual-content
    keyword. *)
Definition strong_signal (L : Libs) (content : string) : bool :=
  existsb (fun pc : string * float =>
             includes (toLowerCase content) (fst pc) && gt (snd pc) 0.5)
          ToxicityDetector.toxic_patterns
  || existsb (fun p => RegExp_test L (re_i p) content)
             ToxicityDetector.hate_speech_patterns
  || existsb (fun p => includes (toLowerCase content) p)
             ToxicityDetector.violence_patterns
  || existsb (fun p => includes (toLowerCase content) p)
             ToxicityDetector.sexual_content_patterns.

(** The confidences that the toxicity detector works with. *)
Definition toxicity_levels : list float :=
  [0; 0.2; 0.3; 0.5; 0.6; 0.7; 0.8; 0.9].

(** *** Personal information *)

(** The confidences that the personal-information detector works with. *)
Definition pii_levels : list float := [0; 0.5; 0.6; 0.7; 0.8; 0.9; 0.95].

(** *** White space at the ends *)

Definition starts_with_space (s : string) : bool :=
  match s with
  | EmptyString => false
  | String c _ => is_space c
  end.

Definition ends_with_space (s : string) : bool := starts_with_space (rev s).

End Spec.

(** * Properties *)

Import ModerationEngine.

(** ** Shape of a successful call *)

Lemma bind_Ok_inv {A B : Type} (r : Result A) (k : A -> Result B) (b : B) :
  bind r k = Ok b -> exists a, r = Ok a /\ k a = Ok b.
Proof.
  destruct r as [a | m]; simpl; intro H.
  - exists a. split; [reflexivity | exact H].
  - discriminate H.
Qed.

Lemma moderate_content_Ok_inv
      (L : Libs) (engine : ModerationEngine.t) (t0 t1 : Z)
      (request : ContentModerationRequest)
      (response : ContentModerationResponse) :
  moderate_content L engine t0 t1 request = Ok response ->
  validate_request request = Ok tt
  /\ flags response = collect_flags L engine request
  /\ is_flagged response = (0 <? List.length (flags response))%nat
  /\ overall_severity response = calculate_overall_severity (flags response)
  /\ confidence_score response = calculate_confidence_score (flags response)
  /\ safe_to_post response
     = determine_safe_to_post (flags response) (overall_severity response)
  /\ recommendations response
     = generate_recommendations (flags response) (platform request)
  /\ processing_time_ms response = (t1 - t0)%Z.
Proof.
  unfold moderate_content, moderate_content_body.
  destruct (validate_request request) as [[] | m] eqn:Hv; simpl.
  - intro H. injection H as <-. simpl. repeat split; reflexivity.
  - discriminate.
Qed.

(** ** Overall severity *)

Section Severity.

Lemma severity_le_refl s : Spec.severity_le s s.
Proof. destruct s; exact I. Qed.

Lemma severity_le_trans a b c :
  Spec.severity_le a b -> Spec.severity_le b c -> Spec.severity_le a c.
Proof. destruct a, b, c; simpl; tauto. Qed.

Lemma severity_scores_le a b :
  (severity_scores a <=? severity_scores b)%Z = true <-> Spec.severity_le a b.
Proof. destruct a, b; simpl; split; (reflexivity || discriminate || tauto). Qed.

Let step (max : SeverityLevel) (flag : ModerationFlag) : SeverityLevel :=
  if (severity_scores max <? severity_scores (severity flag))%Z
  then severity flag else max.

Lemma step_spec max flag :
  (step max flag = max \/ step max flag = severity flag)
  /\ Spec.severity_le max (step max flag)
  /\ Spec.severity_le (severity flag) (step max flag).
Proof.
  unfold step.
  destruct (severity_scores max <? severity_scores (severity flag))%Z eqn:E.
  - repeat split; [now right | | apply severity_le_refl].
    apply severity_scores_le. apply Z.leb_le. apply Z.ltb_lt in E. lia.
  - repeat split; [now left | apply severity_le_refl | ].
    apply severity_scores_le. apply Z.leb_le. apply Z.ltb_ge in E. lia.
Qed.

Lemma reduce_max_spec fs : forall acc,
  let r := fold_left step fs acc in
  (r = acc \/ exists f, In f fs /\ severity f = r)
  /\ Spec.severity_le acc r
  /\ forall f, In f fs -> Spec.severity_le (severity f) r.
Proof.
  induction fs as [| f fs IH]; intro acc; simpl.
  - repeat split; [now left | apply severity_le_refl | contradiction].
  - destruct (IH (step acc f)) as (Hsrc & Hle & Hall).
    destruct (step_spec acc f) as (Hstep & Hacc & Hf).
    repeat split.
    + destruct Hsrc as [Hr | (g & Hg & Hs)].
      * destruct Hstep as [Hs | Hs].
        -- left. now rewrite Hr.
        -- right. exists f. split; [now left | now rewrite Hr].
      * right. exists g. split; [now right | exact Hs].
    + eapply severity_le_trans; eassumption.
    + intros g [<- | Hg].
      * eapply severity_le_trans; eassumption.
      * now apply Hall.
Qed.

Lemma severity_le_LOW s : Spec.severity_le s LOW -> s = LOW.
Proof. destruct s; simpl; (reflexivity || contradiction). Qed.

Lemma calculate_overall_severity_is_max fs :
  Spec.is_max_severity (calculate_overall_severity fs) fs.
Proof.
  unfold calculate_overall_severity, Spec.is_max_severity.
  destruct fs as [| f fs]; [reflexivity |].
  change (List.length (f :: fs) =? 0)%nat with false. cbv iota.
  destruct (reduce_max_spec (f :: fs) LOW) as (Hsrc & _ & Hall).
  fold step. split; [| exact Hall].
  destruct Hsrc as [Hr | Hex]; [| exact Hex].
  exists f. split; [now left |].
  rewrite Hr. apply severity_le_LOW. rewrite <- Hr. apply Hall. now left.
Qed.

End Severity.

(** C2. For every accepted request, the overall severity of the response is
    the maximum of the severities of its flags in the order
    LOW < MEDIUM < HIGH < CRITICAL, and LOW when there is no flag. *)
Theorem overall_severity_is_max
        (L : Libs) (engine : ModerationEngine.t) (t0 t1 : Z)
        (request : ContentModerationRequest)
        (response : ContentModerationResponse) :
  moderate_content L engine t0 t1 request = Ok response ->
  Spec.is_max_severity (overall_severity response) (flags response).
Proof.
  intro H. apply moderate_content_Ok_inv in H.
  destruct H as (_ & _ & _ & Hsev & _). rewrite Hsev.
  apply calculate_overall_severity_is_max.
Qed.

(** C3. For every accepted request, [safe_to_post] is false exactly when the
    overall severity is HIGH or CRITICAL. *)
Theorem safe_to_post_iff_not_high
        (L : Libs) (engine : ModerationEngine.t) (t0 t1 : Z)
        (request : ContentModerationRequest)
        (response : ContentModerationResponse) :
  moderate_content L engine t0 t1 request = Ok response ->
  (safe_to_post response = false
   <-> overall_severity response = HIGH \/ overall_severity response = CRITICAL).
Proof.
  intro H. apply moderate_content_Ok_inv in H.
  destruct H as (_ & _ & _ & _ & _ & Hsafe & _). rewrite Hsafe.
  unfold determine_safe_to_post.
  destruct (overall_severity response); simpl; split; intro H;
    try discriminate; try reflexivity; auto;
    destruct H as [H | H]; discriminate H.
Qed.

(** ** Platform policy *)

(** C7. The platform check depends on the content and the platform only.
    For TWITTER it yields exactly one LOW [character_limit] flag with
    confidence 1.0 when the content is longer than 280 and nothing
    otherwise; for INSTAGRAM one LOW [hashtag_limit] flag when there are
    more than 30 [#] characters; for LINKEDIN one LOW [mention_limit] flag
    when there are more than 5 [@] characters; for any other platform it
    yields nothing. *)
Theorem check_platform_rules_spec (request : ContentModerationRequest) :
  let fs := check_platform_rules request in
  (forall other,
      content other = content request -> platform other = platform request ->
      check_platform_rules other = fs)
  /\ (platform request = PlatformType_value TWITTER ->
      ((len (content request) > 280)%Z
       /\ Spec.single_low_flag fs "character_limit")
      \/ ((len (content request) <= 280)%Z /\ fs = []))
  /\ (platform request = PlatformType_value INSTAGRAM ->
      (count_chars (Ascii.eqb "#") (content request) > 30
       /\ Spec.single_low_flag fs "hashtag_limit")
      \/ (count_chars (Ascii.eqb "#") (content request) <= 30 /\ fs = []))
  /\ (platform request = PlatformType_value LINKEDIN ->
      (count_chars (Ascii.eqb "@") (content request) > 5
       /\ Spec.single_low_flag fs "mention_limit")
      \/ (count_chars (Ascii.eqb "@") (content request) <= 5 /\ fs = []))
  /\ (platform request <> PlatformType_value TWITTER ->
      platform request <> PlatformType_value INSTAGRAM ->
      platform request <> PlatformType_value LINKEDIN ->
      fs = []).
Proof.
  cbv zeta. unfold check_platform_rules, Spec.single_low_flag.
  split; [| split; [| split; [| split]]].
  - intros other Hc Hp. now rewrite Hc, Hp.
  - intro Hp. rewrite Hp. simpl String.eqb. cbv iota.
    destruct (280 <? len (content request))%Z eqn:E.
    + left. apply Z.ltb_lt in E. split; [lia |].
      eexists. split; [reflexivity |]. repeat split.
    + right. apply Z.ltb_ge in E. split; [lia | reflexivity].
  - intro Hp. rewrite Hp. simpl String.eqb. cbv iota.
    destruct (30 <? count_chars (Ascii.eqb "#") (content request))%nat eqn:E.
    + left. apply Nat.ltb_lt in E. split; [lia |].
      eexists. split; [reflexivity |]. repeat split.
    + right. apply Nat.ltb_ge in E. split; [lia | reflexivity].
  - intro Hp. rewrite Hp. simpl String.eqb. cbv iota.
    destruct (5 <? count_chars (Ascii.eqb "@") (content request))%nat eqn:E.
    + left. apply Nat.ltb_lt in E. split; [lia |].
      eexists. split; [reflexivity |]. repeat split.
    + right. apply Nat.ltb_ge in E. split; [lia | reflexivity].
  - intros Ht Hi Hl.
    apply String.eqb_neq in Ht, Hi, Hl. now rewrite Ht, Hi, Hl.
Qed.

(** ** Recommendations *)

Lemma SeverityLevel_eqb_eq a b : SeverityLevel_eqb a b = true <-> a = b.
Proof. destruct a, b; simpl; split; (reflexivity || discriminate). Qed.

Lemma existsb_has_severity fs s :
  existsb (fun f => SeverityLevel_eqb (severity f) s) fs = true
  <-> Spec.has_severity fs s.
Proof.
  unfold Spec.has_severity. rewrite existsb_exists.
  split; intros (f & Hin & Hs); exists f; split; auto;
    now apply SeverityLevel_eqb_eq.
Qed.

Lemma existsb_critical_or_high fs :
  existsb (fun f => SeverityLevel_eqb (severity f) CRITICAL
                    || SeverityLevel_eqb (severity f) HIGH) fs = true
  <-> Spec.has_severity fs HIGH \/ Spec.has_severity fs CRITICAL.
Proof.
  unfold Spec.has_severity. rewrite existsb_exists. split.
  - intros (f & Hin & Hs). apply orb_true_iff in Hs.
    destruct Hs as [Hs | Hs]; apply SeverityLevel_eqb_eq in Hs;
      [right | left]; exists f; auto.
  - intros [(f & Hin & Hs) | (f & Hin & Hs)]; exists f; split; auto;
      rewrite Hs; reflexivity.
Qed.

Lemma tier_of_flags f fs :
  exists msg,
    Spec.tier_message (f :: fs) msg
    /\ (if existsb (fun f => SeverityLevel_eqb (severity f) CRITICAL
                             || SeverityLevel_eqb (severity f) HIGH) (f :: fs)
        then push [] NOTIFICATION_MESSAGES.RECOMMEND_REPLACE
        else if existsb (fun f => SeverityLevel_eqb (severity f) MEDIUM) (f :: fs)
        then push [] NOTIFICATION_MESSAGES.RECOMMEND_EDIT
        else push [] NOTIFICATION_MESSAGES.RECOMMEND_REVIEW) = [msg].
Proof.
  destruct (existsb (fun f => SeverityLevel_eqb (severity f) CRITICAL
                              || SeverityLevel_eqb (severity f) HIGH)
                    (f :: fs)) eqn:E1.
  - eexists. split; [| reflexivity].
    apply Spec.tier_replace. now apply existsb_critical_or_high.
  - assert (Hno : ~ (Spec.has_severity (f :: fs) HIGH
                     \/ Spec.has_severity (f :: fs) CRITICAL)).
    { intro H. apply existsb_critical_or_high in H. congruence. }
    destruct (existsb (fun f => SeverityLevel_eqb (severity f) MEDIUM)
                      (f :: fs)) eqn:E2.
    + eexists. split; [| reflexivity].
      apply Spec.tier_edit; [tauto | tauto |].
      now apply existsb_has_severity.
    + eexists. split; [| reflexivity].
      apply Spec.tier_review; [tauto | tauto | | discriminate].
      intro H. apply existsb_has_severity in H. congruence.
Qed.

Lemma generate_recommendations_spec fs platform :
  exists msg tips,
    generate_recommendations fs platform = msg :: tips
    /\ Spec.tier_message fs msg
    /\ (tips = []
        \/ exists tip, Spec.platform_tip platform = Some tip /\ tips = [tip])
    /\ (Spec.platform_tip platform = None -> tips = [])
    /\ (fs = [] -> tips = [])
    /\ (fs <> [] ->
        forall tip, Spec.platform_tip platform = Some tip -> tips = [tip]).
Proof.
  unfold generate_recommendations.
  destruct fs as [| f fs].
  - exists NOTIFICATION_MESSAGES.CONTENT_SAFE, []. simpl.
    split; [reflexivity |]. split; [now apply Spec.tier_safe |].
    split; [now left |]. split; [reflexivity |]. split; [reflexivity |].
    intro H. now contradiction H.
  - change (List.length (f :: fs) =? 0)%nat with false. cbv iota zeta.
    destruct (tier_of_flags f fs) as (msg & Htier & ->).
    unfold Spec.platform_tip.
    change (PlatformType_value TWITTER) with "twitter".
    change (PlatformType_value INSTAGRAM) with "instagram".
    change (PlatformType_value LINKEDIN) with "linkedin".
    destruct (String.eqb platform "twitter");
      [| destruct (String.eqb platform "instagram");
         [| destruct (String.eqb platform "linkedin")]].
    + exists msg, [TWITTER_TIP].
      split; [reflexivity |]. split; [exact Htier |].
      split; [right; eexists; split; reflexivity |].
      split; [discriminate |]. split; [discriminate |].
      intros _ tip Htip. now injection Htip as <-.
    + exists msg, [INSTAGRAM_TIP].
      split; [reflexivity |]. split; [exact Htier |].
      split; [right; eexists; split; reflexivity |].
      split; [discriminate |]. split; [discriminate |].
      intros _ tip Htip. now injection Htip as <-.
    + exists msg, [LINKEDIN_TIP].
      split; [reflexivity |]. split; [exact Htier |].
      split; [right; eexists; split; reflexivity |].
      split; [discriminate |]. split; [discriminate |].
      intros _ tip Htip. now injection Htip as <-.
    + exists msg, [].
      split; [reflexivity |]. split; [exact Htier |].
      split; [now left |]. split; [reflexivity |]. split; [discriminate |].
      intros _ tip Htip. discriminate Htip.
Qed.

(** C8. For every accepted request the recommendations are exactly one
    severity-tier message (replace if a flag is HIGH or CRITICAL, else edit
    if one is MEDIUM, else review if there is a flag, else the safe
    message), followed by at most one tip, which is the fixed tip of the
    platform; there is none for a platform other than TWITTER, INSTAGRAM
    and LINKEDIN, none after the safe message, and one whenever there is a
    flag and the platform has a tip. *)
Theorem recommendations_spec
        (L : Libs) (engine : ModerationEngine.t) (t0 t1 : Z)
        (request : ContentModerationRequest)
        (response : ContentModerationResponse) :
  moderate_content L engine t0 t1 request = Ok response ->
  exists msg tips,
    recommendations response = msg :: tips
    /\ Spec.tier_message (flags response) msg
    /\ (tips = []
        \/ exists tip,
            Spec.platform_tip (platform request) = Some tip /\ tips = [tip])
    /\ (Spec.platform_tip (platform request) = None -> tips = [])
    /\ (flags response = [] -> tips = [])
    /\ (flags response <> [] ->
        forall tip,
          Spec.platform_tip (platform request) = Some tip -> tips = [tip]).
Proof.
  intro H. apply moderate_content_Ok_inv in H.
  destruct H as (_ & _ & _ & _ & _ & _ & Hrec & _). rewrite Hrec.
  apply generate_recommendations_spec.
Qed.

(** ** Configuration *)

Lemma update_config_is_new engine c : update_config engine c = new c.
Proof. reflexivity. Qed.

Lemma collect_flags_consulted L c1 c2 request :
  Spec.same_consulted_fields c1 c2 ->
  collect_flags L (new c1) request = collect_flags L (new c2) request.
Proof.
  intros (Hr & Hp & Hs & Ht & Hsp & Hpi).
  unfold collect_flags, profanity_flags, sentiment_flags, toxicity_flags,
    spam_flags, personal_info_flags, new, RuleEngine.new.
  cbn [config rule_engine].
  rewrite Hr, Hp, Hs, Ht, Hsp, Hpi. reflexivity.
Qed.

(** C10. Two engines whose configurations agree on the rules and on the
    five toggles for profanity, sentiment, toxicity, spam and personal
    information answer a request alike, up to [processing_time_ms]:
    [sensitivity_threshold] and the toggles for hate speech, violence and
    sexual content are free to differ. *)
Theorem response_ignores_unread_config
        (L : Libs) (c1 c2 : ModerationConfig) (t0 t1 t0' t1' : Z)
        (request : ContentModerationRequest) :
  Spec.same_consulted_fields c1 c2 ->
  match moderate_content L (new c1) t0 t1 request,
        moderate_content L (new c2) t0' t1' request with
  | Ok r1, Ok r2 => Spec.without_time r1 = Spec.without_time r2
  | Err m1, Err m2 => m1 = m2
  | _, _ => False
  end.
Proof.
  intro H. unfold moderate_content, moderate_content_body.
  destruct (validate_request request) as [[] | m]; cbn [bind]; [| reflexivity].
  unfold Spec.without_time.
  cbn [is_flagged flags overall_severity confidence_score safe_to_post
       recommendations].
  rewrite (collect_flags_consulted L c1 c2 request H). reflexivity.
Qed.

(** ** Validation *)

Section Blank.








End Blank.





(** ** Custom rules *)

Section Rules.

Variable L : Libs.
Variable request : ContentModerationRequest.

Lemma check_pattern_spec rule acc p :
  RuleEngine.check_pattern L request rule acc p
  = (acc ++ Spec.flags_of_patterns L request rule [p])%list.
Proof.
  unfold RuleEngine.check_pattern, Spec.flags_of_patterns, Spec.pattern_match,
    RuleEngine.try_regex, new_RegExp, String_match, RuleEngine.rule_flag, push.
  destruct (RuleEngine.is_regex_delimited p).
  - destruct (regexp_compiles L (slice_1_m1 p)); cbn [bind source ignore_case].
    + destruct (regexp_match_all L (slice_1_m1 p) true (content request));
        [now rewrite app_nil_r | reflexivity].
    + now rewrite app_nil_r.
  - destruct (includes (toLowerCase (content request)) (toLowerCase p));
      [reflexivity | now rewrite app_nil_r].
Qed.

Lemma flags_of_patterns_app rule ps qs :
  Spec.flags_of_patterns L request rule (ps ++ qs)
  = (Spec.flags_of_patterns L request rule ps
     ++ Spec.flags_of_patterns L request rule qs)%list.
Proof.
  induction ps as [| p ps IH]; [reflexivity |].
  simpl. destruct (Spec.pattern_match L request p); rewrite IH; reflexivity.
Qed.

Lemma fold_check_pattern rule ps : forall acc,
  fold_left (RuleEngine.check_pattern L request rule) ps acc
  = (acc ++ Spec.flags_of_patterns L request rule ps)%list.
Proof.
  induction ps as [| p ps IH]; intro acc.
  - simpl. now rewrite app_nil_r.
  - cbn [fold_left]. rewrite IH, check_pattern_spec, <- app_assoc.
    now rewrite <- flags_of_patterns_app.
Qed.

Lemma check_single_rule_spec rule :
  RuleEngine.check_single_rule L request rule
  = Spec.flags_of_patterns L request rule (rule_patterns rule).
Proof. unfold RuleEngine.check_single_rule. now rewrite fold_check_pattern. Qed.

Lemma check_rules_flat_map engine :
  RuleEngine.check_rules L engine request
  = flat_map (Spec.flags_of_rule L request) (RuleEngine.rules_of engine).
Proof.
  unfold RuleEngine.check_rules.
  rewrite <- (app_nil_l (flat_map _ _)).
  generalize (@nil ModerationFlag) as acc.
  induction (RuleEngine.rules_of engine) as [| rule rs IH]; intro acc.
  - simpl. now rewrite app_nil_r.
  - cbn [fold_left flat_map]. rewrite IH.
    unfold Spec.flags_of_rule at 2, Spec.applies, RuleEngine.platforms_include,
      push_all.
    destruct (rule_enabled rule); cbn [negb andb].
    + destruct (existsb _ (rule_platforms rule)); cbn [negb].
      * now rewrite check_single_rule_spec, <- app_assoc.
      * reflexivity.
    + reflexivity.
Qed.

Lemma flags_of_patterns_In rule ps f :
  In f (Spec.flags_of_patterns L request rule ps) ->
  exists p text,
    In p ps /\ Spec.pattern_match L request p = Some text
    /\ f = RuleEngine.rule_flag rule text.
Proof.
  induction ps as [| p ps IH]; simpl; [contradiction |].
  destruct (Spec.pattern_match L request p) as [text |] eqn:E.
  - intros [<- | Hin].
    + exists p, text. repeat split; auto.
    + destruct (IH Hin) as (q & t & Hq & Hm & Hf). exists q, t. auto.
  - intro Hin. destruct (IH Hin) as (q & t & Hq & Hm & Hf). exists q, t. auto.
Qed.

Lemma flags_of_patterns_length rule ps :
  List.length (Spec.flags_of_patterns L request rule ps)
  = List.length (filter (Spec.matches L request) ps).
Proof.
  induction ps as [| p ps IH]; [reflexivity |].
  unfold Spec.matches in *. simpl.
  destruct (Spec.pattern_match L request p); simpl; now rewrite IH.
Qed.

End Rules.

(** Where a flag of [check_rules] comes from. *)
Lemma check_rules_origin
      (L : Libs) (engine : RuleEngine.t) (request : ContentModerationRequest)
      (f : ModerationFlag) :
  In f (RuleEngine.check_rules L engine request) ->
  exists rule,
    In rule (RuleEngine.rules_of engine)
    /\ rule_enabled rule = true
    /\ (exists p, In p (rule_platforms rule)
                  /\ PlatformType_value p = platform request)
    /\ type f = "custom_rule_" ++ rule_id rule
    /\ severity f = rule_severity rule
    /\ confidence f = 0.8%float.
Proof.
  intro Hf. rewrite (check_rules_flat_map L request engine) in Hf.
  apply in_flat_map in Hf as (rule & Hrule & Hin).
  unfold Spec.flags_of_rule, Spec.applies in Hin.
  destruct (rule_enabled rule) eqn:Een; [| contradiction].
  destruct (existsb _ (rule_platforms rule)) eqn:Epf; [| contradiction].
  cbn [andb] in Hin.
  apply flags_of_patterns_In in Hin as (p & text & _ & _ & ->).
  apply existsb_exists in Epf as (pf & Hpf & Heq).
  apply String.eqb_eq in Heq.
  exists rule. repeat split; eauto.
Qed.

(** C6. [check_rules] is the concatenation, in rule order, of the flags of
    the rules that are enabled and list the request's platform, a rule
    giving one flag per matching pattern, in pattern order and without
    merging: so every flag comes from such a rule, has type
    [custom_rule_<id>], the rule's severity and confidence 0.8; a rule
    gives as many flags as it has matching patterns; and a delimited
    pattern that does not compile gives no flag and leaves the flags of the
    patterns around it as they are. *)
Theorem check_rules_spec
        (L : Libs) (engine : RuleEngine.t) (request : ContentModerationRequest) :
  RuleEngine.check_rules L engine request
  = flat_map (Spec.flags_of_rule L request) (RuleEngine.rules_of engine)
  /\ (forall f, In f (RuleEngine.check_rules L engine request) ->
      exists rule,
        In rule (RuleEngine.rules_of engine)
        /\ rule_enabled rule = true
        /\ (exists p, In p (rule_platforms rule)
                      /\ PlatformType_value p = platform request)
        /\ type f = "custom_rule_" ++ rule_id rule
        /\ severity f = rule_severity rule
        /\ confidence f = 0.8%float)
  /\ (forall rule,
      List.length (RuleEngine.check_single_rule L request rule)
      = List.length (filter (Spec.matches L request) (rule_patterns rule)))
  /\ (forall rule before bad after,
      RuleEngine.is_regex_delimited bad = true ->
      regexp_compiles L (slice_1_m1 bad) = false ->
      rule_patterns rule = (before ++ bad :: after)%list ->
      RuleEngine.check_single_rule L request rule
      = (Spec.flags_of_patterns L request rule before
         ++ Spec.flags_of_patterns L request rule after)%list).
Proof.
  split; [apply check_rules_flat_map |]. split; [| split].
  - intros f Hf. exact (check_rules_origin L engine request f Hf).
  - intro rule. rewrite check_single_rule_spec. apply flags_of_patterns_length.
  - intros rule before bad after Hdel Hbad Hps.
    rewrite check_single_rule_spec, Hps, flags_of_patterns_app.
    f_equal. cbn [Spec.flags_of_patterns].
    unfold Spec.pattern_match. now rewrite Hdel, Hbad.
Qed.

(** ** Profanity *)

Lemma fold_push_filter {A : Type} (p : A -> bool) (xs : list A) : forall acc,
  fold_left (fun acc x => if p x then push acc x else acc) xs acc
  = (acc ++ filter p xs)%list.
Proof.
  induction xs as [| x xs IH]; intro acc; simpl.
  - now rewrite app_nil_r.
  - rewrite IH. destruct (p x); [| reflexivity].
    unfold push. now rewrite <- app_assoc.
Qed.

Lemma profane_words_filter (L : Libs) (content : string) :
  profane_words (ProfanityDetector.check L content)
  = if is_profane (ProfanityDetector.check L content)
    then filter (includes (toLowerCase content)) ProfanityDetector.common_profane
    else [].
Proof.
  unfold ProfanityDetector.check. cbn [profane_words is_profane].
  destruct (negb _); [| reflexivity].
  apply (fold_push_filter (includes (toLowerCase content))).
Qed.

(** C9. The [profane_words] of [ProfanityDetector.check] are among the six
    words fuck, shit, bitch, ass, damn, hell; each of them occurs in the
    lower-cased content; there is none when [is_profane] is false.  Since
    [is_profane] only says that the filter changed the text, a text that the
    filter changes and that contains none of the six words is reported
    profane with no word; with the reference filter, whose list has
    "bastard", that text is such an input. *)
Theorem profane_words_narrower_than_is_profane :
  (forall (L : Libs) (content : string),
      let r := ProfanityDetector.check L content in
      (forall w, In w (profane_words r) ->
                 In w ProfanityDetector.common_profane
                 /\ includes (toLowerCase content) w = true)
      /\ (is_profane r = false -> profane_words r = [])
      /\ (clean L (ProfanityDetector.new L) content <> content ->
          (forall w, In w ProfanityDetector.common_profane ->
                     includes (toLowerCase content) w = false) ->
          is_profane r = true /\ profane_words r = []))
  /\ (exists content,
        let r := ProfanityDetector.check Reference.libs content in
        is_profane r = true /\ profane_words r = []).
Proof.
  split.
  - intros L content r. subst r. rewrite profane_words_filter.
    split; [| split].
    + intros w Hw. destruct (is_profane _); [| contradiction].
      apply filter_In in Hw. exact Hw.
    + now intros ->.
    + intros Hchanged Hnone.
      assert (Hp : is_profane (ProfanityDetector.check L content) = true).
      { unfold ProfanityDetector.check. cbn [is_profane].
        apply negb_true_iff. now apply String.eqb_neq. }
      rewrite Hp. split; [reflexivity |].
      destruct (filter _ _) as [| w ws] eqn:E; [reflexivity |].
      assert (Hin : In w (filter (includes (toLowerCase content))
                                 ProfanityDetector.common_profane))
        by (rewrite E; now left).
      apply filter_In in Hin as (Hin & Hinc).
      rewrite (Hnone w Hin) in Hinc. discriminate Hinc.
  - exists "bastard". vm_compute. split; reflexivity.
Qed.

(** ** Spam *)

Section WordCount.

Let mem (w : string) (l : list string) : bool := existsb (String.eqb w) l.

Lemma mem_eqb_sym w x : String.eqb w x = String.eqb x w.
Proof. apply String.eqb_sym. Qed.

Lemma mem_In w l : mem w l = true <-> In w l.
Proof.
  unfold mem. rewrite existsb_exists. split.
  - intros (x & Hx & E). apply String.eqb_eq in E. now subst.
  - intro H. exists w. split; [exact H | apply String.eqb_refl].
Qed.

Lemma mem_false_not_In w l : mem w l = false <-> ~ In w l.
Proof.
  rewrite <- mem_In. destruct (mem w l); split; congruence.
Qed.

Lemma dedupe_from_snoc l : forall seen w,
  dedupe_from seen (l ++ [w])
  = (dedupe_from seen l ++ if mem w seen || mem w l then [] else [w])%list.
Proof.
  induction l as [| x l IH]; intros seen w.
  - cbn [app dedupe_from]. fold (mem w seen). cbn [mem existsb].
    rewrite orb_false_r. now destruct (mem w seen).
  - cbn [app dedupe_from]. fold (mem x seen).
    destruct (mem x seen) eqn:Ex.
    + rewrite IH. f_equal. cbn [mem existsb]. fold (mem w l).
      destruct (String.eqb w x) eqn:E; [| reflexivity].
      apply String.eqb_eq in E. subst x. now rewrite Ex.
    + rewrite IH. cbn [app]. do 2 f_equal. cbn [mem existsb].
      fold (mem w seen) (mem w l).
      now destruct (String.eqb w x), (mem w seen), (mem w l).
Qed.

Lemma dedupe_snoc l w :
  dedupe (l ++ [w]) = (dedupe l ++ if mem w l then [] else [w])%list.
Proof. unfold dedupe. now rewrite dedupe_from_snoc. Qed.

Lemma mem_dedupe_from l : forall seen w,
  mem w (dedupe_from seen l) = mem w l && negb (mem w seen).
Proof.
  induction l as [| x l IH]; intros seen w; [reflexivity |].
  cbn [dedupe_from]. fold (mem x seen).
  destruct (mem x seen) eqn:Ex.
  - rewrite IH. cbn [mem existsb]. fold (mem w l).
    destruct (String.eqb w x) eqn:E; [| reflexivity].
    apply String.eqb_eq in E. subst x. rewrite Ex. cbn.
    now rewrite andb_false_r.
  - cbn [mem existsb]. fold (mem w (dedupe_from (x :: seen) l)) (mem w l).
    rewrite IH. cbn [mem existsb]. fold (mem w seen).
    destruct (String.eqb w x) eqn:E.
    + apply String.eqb_eq in E. subst x. now rewrite Ex.
    + reflexivity.
Qed.

Lemma mem_dedupe l w : mem w (dedupe l) = mem w l.
Proof. unfold dedupe. rewrite mem_dedupe_from. cbn. now rewrite andb_true_r. Qed.

Lemma NoDup_dedupe_from l : forall seen, NoDup (dedupe_from seen l).
Proof.
  induction l as [| x l IH]; intro seen; cbn [dedupe_from]; [constructor |].
  destruct (existsb (String.eqb x) seen); [apply IH |].
  constructor; [| apply IH].
  intro Hin. apply mem_In in Hin. rewrite mem_dedupe_from in Hin.
  cbn [mem existsb] in Hin. rewrite String.eqb_refl in Hin. cbn in Hin.
  now rewrite andb_false_r in Hin.
Qed.

Lemma occurrences_snoc k l w :
  Spec.occurrences k (l ++ [w])
  = Spec.occurrences k l + if String.eqb k w then 1 else 0.
Proof.
  unfold Spec.occurrences. rewrite filter_app, length_app. cbn [filter].
  now destruct (String.eqb k w).
Qed.

Lemma occurrences_not_mem w l : mem w l = false -> Spec.occurrences w l = 0.
Proof.
  unfold Spec.occurrences. induction l as [| x l IH]; [reflexivity |].
  cbn [mem existsb filter]. destruct (String.eqb w x); [discriminate |].
  exact IH.
Qed.

Lemma map_get_keyed (h : string -> nat) keys w :
  SpamDetector.map_get (map (fun k => (k, h k)) keys) w
  = if mem w keys then Some (h w) else None.
Proof.
  induction keys as [| k ks IH]; [reflexivity |].
  cbn [map SpamDetector.map_get mem existsb]. rewrite (mem_eqb_sym w k).
  destruct (String.eqb k w) eqn:E; [| exact IH].
  apply String.eqb_eq in E. now subst.
Qed.

Lemma map_set_keyed (h : string -> nat) keys w v :
  NoDup keys ->
  SpamDetector.map_set (map (fun k => (k, h k)) keys) w v
  = if mem w keys
    then map (fun k => (k, if String.eqb k w then v else h k)) keys
    else (map (fun k => (k, h k)) keys ++ [(w, v)])%list.
Proof.
  induction keys as [| k ks IH]; intro Hnd; [reflexivity |].
  inversion Hnd as [| ? ? Hk Hks]; subst.
  cbn [map SpamDetector.map_set mem existsb]. rewrite (mem_eqb_sym w k).
  destruct (String.eqb k w) eqn:E.
  - apply String.eqb_eq in E. subst k. cbn [orb]. f_equal.
    apply map_ext_in. intros k Hin.
    destruct (String.eqb k w) eqn:E'; [| reflexivity].
    apply String.eqb_eq in E'. subst k. contradiction.
  - cbn [orb]. rewrite (IH Hks). fold (mem w ks).
    destruct (mem w ks); reflexivity.
Qed.

Let tally_step (m : SpamDetector.WordMap) (w : string) : SpamDetector.WordMap :=
  SpamDetector.map_set m w
    (match SpamDetector.map_get m w with Some n => n | None => 0 end + 1).

Lemma tally_spec l :
  fold_left tally_step l []
  = map (fun w => (w, Spec.occurrences w l)) (dedupe l).
Proof.
  induction l as [| w l IH] using rev_ind; [reflexivity |].
  rewrite fold_left_app. cbn [fold_left]. rewrite IH. unfold tally_step.
  rewrite map_get_keyed, map_set_keyed by apply NoDup_dedupe_from.
  rewrite mem_dedupe, dedupe_snoc.
  destruct (mem w l) eqn:E.
  - rewrite app_nil_r. apply map_ext. intro k.
    rewrite occurrences_snoc.
    destruct (String.eqb k w) eqn:E'; [| now rewrite Nat.add_0_r].
    apply String.eqb_eq in E'. now subst.
  - rewrite map_app. cbn [map]. f_equal.
    + apply map_ext_in. intros k Hin. rewrite occurrences_snoc.
      destruct (String.eqb k w) eqn:E'; [| now rewrite Nat.add_0_r].
      apply String.eqb_eq in E'. subst k. exfalso.
      apply mem_In in Hin. rewrite mem_dedupe in Hin. congruence.
    + rewrite occurrences_snoc, String.eqb_refl.
      now rewrite (occurrences_not_mem w l E).
Qed.

Lemma count_words_tally ws : forall acc,
  fold_left
    (fun word_frequency word =>
       if (3 <? String.length word)%nat
       then SpamDetector.map_set word_frequency word
              (match SpamDetector.map_get word_frequency word with
               | Some n => n
               | None => 0
               end + 1)
       else word_frequency) ws acc
  = fold_left tally_step
      (filter (fun w => (3 <? String.length w)%nat) ws) acc.
Proof.
  induction ws as [| w ws IH]; intro acc; [reflexivity |].
  cbn [fold_left filter]. rewrite IH.
  destruct (3 <? String.length w)%nat; reflexivity.
Qed.

(** The word map of the code lists each distinct long word once, in order
    of first occurrence, with its number of occurrences. *)
Lemma count_words_spec ws :
  SpamDetector.count_words ws
  = map (fun w => (w, Spec.occurrences
                        w (filter (fun w => (3 <? String.length w)%nat) ws)))
        (dedupe (filter (fun w => (3 <? String.length w)%nat) ws)).
Proof.
  unfold SpamDetector.count_words. rewrite count_words_tally.
  apply tally_spec.
Qed.

End WordCount.

Section SpamScore.

#[local] Open Scope float_scope.

Lemma score_if (c : bool) (st : SpamDetector.State) (a : float) (m : string) :
  SpamDetector.acc_score (if c then SpamDetector.add st a m else st)
  = fold_left PrimFloat.add (if c then [a] else []) (SpamDetector.acc_score st).
Proof. destruct c; reflexivity. Qed.

Lemma fold_score {A : Type} (f : SpamDetector.State -> A -> SpamDetector.State)
      (p : A -> bool) (v : A -> float) :
  (forall st x,
      SpamDetector.acc_score (f st x)
      = if p x then SpamDetector.acc_score st + v x
        else SpamDetector.acc_score st) ->
  forall xs st,
    SpamDetector.acc_score (fold_left f xs st)
    = fold_left PrimFloat.add (map v (filter p xs)) (SpamDetector.acc_score st).
Proof.
  intros Hf xs. induction xs as [| x xs IH]; intro st; [reflexivity |].
  cbn [fold_left filter]. rewrite IH, Hf.
  destruct (p x); reflexivity.
Qed.

Lemma filter_keyed {B : Type} (g : string -> B) (p : string * B -> bool) keys :
  filter p (map (fun k => (k, g k)) keys)
  = map (fun k => (k, g k)) (filter (fun k => p (k, g k)) keys).
Proof.
  induction keys as [| k ks IH]; [reflexivity |].
  cbn [map filter]. destruct (p (k, g k)); cbn [map]; now rewrite IH.
Qed.

Lemma repetition_signals_of_map content :
  map (fun _ : string * nat => 0.2)
      (filter (fun wc : string * nat => (3 <? snd wc)%nat)
              (SpamDetector.count_words (split_ws (toLowerCase content))))
  = Spec.repetition_signals content.
Proof.
  unfold Spec.repetition_signals, Spec.repeated_words, Spec.long_words.
  rewrite count_words_spec, filter_keyed, map_map. reflexivity.
Qed.

Lemma acc_score_check (L : Libs) (content : string) :
  spam_score (SpamDetector.check L content)
  = Math_min (Spec.sum (Spec.fired_signals L content)) 1.
Proof.
  unfold SpamDetector.check. cbv zeta. cbn [spam_score]. f_equal.
  unfold Spec.sum, Spec.fired_signals. rewrite !fold_left_app.
  rewrite score_if. fold (Spec.suspicious_signal L content). f_equal.
  rewrite (fold_score _ (fun wc : string * nat => (3 <? snd wc)%nat)
                      (fun _ => 0.2))
    by (intros st [w c]; cbn [snd]; destruct (3 <? c)%nat; reflexivity).
  rewrite repetition_signals_of_map. f_equal.
  rewrite score_if. fold (Spec.punctuation_signal content). f_equal.
  rewrite score_if. fold (Spec.capitalization_signal content). f_equal.
  rewrite score_if. fold (Spec.url_signal L content). f_equal.
  rewrite (fold_score _ (fun pc : string * float =>
                           includes (toLowerCase content) (fst pc)) snd)
    by (intros st [w c]; cbn [fst snd];
        destruct (includes (toLowerCase content) w); reflexivity).
  unfold Spec.phrase_signals. cbn [SpamDetector.acc_score]. reflexivity.
Qed.

End SpamScore.

(** C5. The spam score of [SpamDetector.check] is the sum, from left to
    right, of the contributions of the signals that fire (the confidence
    of each spam phrase found, 0.5 times the number of URLs when there are
    more than two, 0.4 for capitals, 0.3 for punctuation, 0.2 for each
    distinct word repeated more than three times, 0.6 once for a
    suspicious pattern), cut at 1.0 by [Math.min]; [is_spam] holds exactly
    when the score is above 0.6; and the flag raised for spam is MEDIUM
    with the score as its confidence. *)
Theorem spam_score_is_clipped_sum (L : Libs) (content : string) :
  let r := SpamDetector.check L content in
  spam_score r = Math_min (Spec.sum (Spec.fired_signals L content)) 1
  /\ is_spam r = gt (spam_score r) 0.6
  /\ (forall engine,
      enable_spam_detection (config engine) = true ->
      (is_spam r = true
       /\ exists f, spam_flags L engine content = [f]
                    /\ type f = "spam" /\ severity f = MEDIUM
                    /\ confidence f = spam_score r)
      \/ (is_spam r = false /\ spam_flags L engine content = [])).
Proof.
  cbv zeta. split; [apply acc_score_check |]. split; [reflexivity |].
  intros engine Hen. unfold spam_flags. rewrite Hen.
  destruct (is_spam (SpamDetector.check L content)).
  - left. split; [reflexivity |]. eexists. split; [reflexivity |].
    repeat split.
  - right. split; reflexivity.
Qed.

(** ** Numbers: facts about comparisons of binary64 values *)

Section FloatFacts.

#[local] Open Scope float_scope.

Lemma SFcompare_refl x : x <> S754_nan -> SFcompare x x = Some Eq.
Proof.
  destruct x as [s | s | | s m e]; intro H; try reflexivity.
  - now destruct s.
  - now contradiction H.
  - simpl. rewrite Z.compare_refl, Pos.compare_cont_refl. now destruct s.
Qed.

Lemma compare_cont_Eq_antisym m m' :
  Pos.compare_cont Eq m' m = CompOpp (Pos.compare_cont Eq m m').
Proof. symmetry. apply (Pos.compare_cont_antisym m m' Eq). Qed.

Lemma SFcompare_antisym x y :
  SFcompare y x = option_map CompOpp (SFcompare x y).
Proof.
  destruct x as [s | s | | s m e], y as [s' | s' | | s' m' e'];
    try reflexivity; try (now destruct s); try (now destruct s');
    try (now destruct s, s').
  simpl. rewrite (Z.compare_antisym e e'), (compare_cont_Eq_antisym m m').
  destruct s, s', (e ?= e')%Z; simpl; try reflexivity;
    now destruct (Pos.compare_cont Eq m m').
Qed.


Lemma is_nan_false_iff x : PrimFloat.is_nan x = false <-> Prim2SF x <> S754_nan.
Proof.
  unfold PrimFloat.is_nan. rewrite eqb_spec. unfold SFeqb. split.
  - intros H E. rewrite E in H. discriminate H.
  - intro H. now rewrite (SFcompare_refl _ H).
Qed.













End FloatFacts.

(** ** Confidence of the flags *)

Section Confidence.

#[local] Open Scope float_scope.

Variable L : Libs.

Lemma fold_left_invariant {S A : Type} (P : S -> Prop) (f : S -> A -> S)
      (xs : list A) :
  (forall st x, In x xs -> P st -> P (f st x)) ->
  forall st, P st -> P (fold_left f xs st).
Proof.
  induction xs as [| x xs IH]; intros Hf st Hst; [exact Hst |].
  cbn [fold_left]. apply IH.
  - intros st' y Hy. apply Hf. now right.
  - apply Hf; [now left | exact Hst].
Qed.

(** *** Toxicity *)








(** *** Personal information *)







(** *** Spam *)


(** *** Sentiment *)


End Confidence.




(** ** Closed instances *)



(** C2 at the response to the text "hate". *)
Lemma overall_severity_is_max_witness :
  Spec.is_max_severity (overall_severity Reference.hate_response)
                       (flags Reference.hate_response).
Proof.
  apply (overall_severity_is_max
           Reference.libs (new Reference.default_config) 0 5
           Reference.hate_request Reference.hate_response).
  vm_compute. reflexivity.
Defined.

(** C3 at the response to the text "hate". *)
Lemma safe_to_post_iff_not_high_witness :
  safe_to_post Reference.hate_response = false
  <-> overall_severity Reference.hate_response = HIGH
      \/ overall_severity Reference.hate_response = CRITICAL.
Proof.
  apply (safe_to_post_iff_not_high
           Reference.libs (new Reference.default_config) 0 5
           Reference.hate_request Reference.hate_response).
  vm_compute. reflexivity.
Defined.

(** C8 at the response to the text "hate" on Twitter. *)
Lemma recommendations_spec_witness :
  exists msg tips,
    recommendations Reference.hate_response = msg :: tips
    /\ Spec.tier_message (flags Reference.hate_response) msg
    /\ (tips = []
        \/ exists tip,
            Spec.platform_tip (platform Reference.hate_request) = Some tip
            /\ tips = [tip])
    /\ (Spec.platform_tip (platform Reference.hate_request) = None -> tips = [])
    /\ (flags Reference.hate_response = [] -> tips = [])
    /\ (flags Reference.hate_response <> [] ->
        forall tip,
          Spec.platform_tip (platform Reference.hate_request) = Some tip ->
          tips = [tip]).
Proof.
  apply (recommendations_spec
           Reference.libs (new Reference.default_config) 0 5
           Reference.hate_request Reference.hate_response).
  vm_compute. reflexivity.
Defined.

(** C10 at two configurations that differ in the four unread fields. *)
Lemma response_ignores_unread_config_witness :
  match moderate_content Reference.libs (new Reference.default_config) 0 5
                         Reference.hate_request,
        moderate_content Reference.libs (new Reference.other_config) 7 9
                         Reference.hate_request with
  | Ok r1, Ok r2 => Spec.without_time r1 = Spec.without_time r2
  | Err m1, Err m2 => m1 = m2
  | _, _ => False
  end.
Proof.
  apply (response_ignores_unread_config
           Reference.libs Reference.default_config Reference.other_config
           0 5 7 9 Reference.hate_request).
  unfold Spec.same_consulted_fields. repeat split.
Defined.

(** The sum of 0.4 (capitals) and 0.2 (one repeated word) is a binary64
    value above 0.6, so this text is spam. *)
Example spam_score_just_above_threshold :
  let r := SpamDetector.check Reference.libs "ABCD ABCD ABCD ABCD ABCD" in
  Spec.fired_signals Reference.libs "ABCD ABCD ABCD ABCD ABCD"
  = [0.4; 0.2]%float
  /\ spam_score r = (0.4 + 0.2)%float
  /\ is_spam r = true
  /\ spam_indicators r
     = ["Excessive capitalization";
        "Repetitive word: " ++ dquote ++ "abcd" ++ dquote ++ " (5 times)"].
Proof. vm_compute. repeat split. Qed.

(** A rule on the text "I hate it": the literal pattern and the delimited
    pattern that compiles give one flag each, the pattern that does not
    compile gives none and stops nothing. *)
Example check_rules_hate_rule :
  RuleEngine.check_rules Reference.libs (RuleEngine.new [Reference.hate_rule])
                         (Reference.request "I hate it" "twitter")
  = [RuleEngine.rule_flag Reference.hate_rule "HATE";
     RuleEngine.rule_flag Reference.hate_rule "hat"]
  /\ RuleEngine.check_rules Reference.libs
       (RuleEngine.new [Reference.hate_rule])
       (Reference.request "I hate it" "youtube") = [].
Proof. vm_compute. split; reflexivity. Qed.

(** The four rejections, each with the earlier tests passed, and the order
    of the tests when two conditions hold at once. *)
Example validation_errors :
  moderate_content Reference.libs (new Reference.default_config) 0 5
                   (Reference.request "   " "myspace")
  = Err (Spec.failure NOTIFICATION_MESSAGES.CONTENT_EMPTY)
  /\ moderate_content Reference.libs (new Reference.default_config) 0 5
       {| content := "hello"; content_type := "pdf"; platform := "myspace";
          user_id := None; metadata := None |}
     = Err (Spec.failure NOTIFICATION_MESSAGES.INVALID_CONTENT_TYPE)
  /\ moderate_content Reference.libs (new Reference.default_config) 0 5
       (Reference.request "hello" "myspace")
     = Err (Spec.failure NOTIFICATION_MESSAGES.INVALID_PLATFORM).
Proof. vm_compute. repeat split. Qed.

(** No flag: the safe message alone, also on a platform that has a tip. *)
Example recommendations_without_flags :
  generate_recommendations [] "twitter" = [NOTIFICATION_MESSAGES.CONTENT_SAFE].
Proof. reflexivity. Qed.

(** * Further properties of the code *)

(** ** Rule management ([RuleEngine]) *)

Section RuleManagement.

Lemma custom_rule_type_inj (a b : string) :
  "custom_rule_" ++ a = "custom_rule_" ++ b -> a = b.
Proof. cbn. intro H. now injection H. Qed.

Lemma flags_of_rule_type L request rule f :
  In f (Spec.flags_of_rule L request rule) ->
  type f = "custom_rule_" ++ rule_id rule.
Proof.
  unfold Spec.flags_of_rule. destruct (Spec.applies rule request);
    [| contradiction].
  intro Hin.
  apply (flags_of_patterns_In L request) in Hin as (p & text & _ & _ & ->).
  reflexivity.
Qed.

Lemma filter_all {A : Type} (p : A -> bool) (l : list A) :
  (forall x, In x l -> p x = true) -> filter p l = l.
Proof.
  induction l as [| x l IH]; intro H; [reflexivity |].
  cbn [filter]. rewrite (H x (or_introl eq_refl)). f_equal.
  apply IH. intros y Hy. apply H. now right.
Qed.

Lemma filter_none {A : Type} (p : A -> bool) (l : list A) :
  (forall x, In x l -> p x = false) -> filter p l = [].
Proof.
  induction l as [| x l IH]; intro H; [reflexivity |].
  cbn [filter]. rewrite (H x (or_introl eq_refl)).
  apply IH. intros y Hy. apply H. now right.
Qed.

Lemma filter_flat_map {A B : Type} (p : B -> bool) (f : A -> list B) l :
  filter p (flat_map f l) = flat_map (fun x => filter p (f x)) l.
Proof.
  induction l as [| x l IH]; [reflexivity |].
  cbn [flat_map]. now rewrite filter_app, IH.
Qed.

Lemma not_of_rule_keeps L request rule id :
  rule_id rule <> id ->
  filter (Spec.not_of_rule id) (Spec.flags_of_rule L request rule)
  = Spec.flags_of_rule L request rule.
Proof.
  intro Hne. apply filter_all. intros f Hf. unfold Spec.not_of_rule.
  rewrite (flags_of_rule_type L request rule f Hf).
  apply negb_true_iff, String.eqb_neq. intro H.
  now apply custom_rule_type_inj in H.
Qed.

Lemma not_of_rule_drops L request rule :
  filter (Spec.not_of_rule (rule_id rule)) (Spec.flags_of_rule L request rule) = [].
Proof.
  apply filter_none. intros f Hf. unfold Spec.not_of_rule.
  rewrite (flags_of_rule_type L request rule f Hf).
  now rewrite String.eqb_refl.
Qed.

Lemma filter_shorter_iff {A : Type} (p : A -> bool) (l : list A) :
  (List.length (filter p l) <? List.length l)%nat = true
  <-> exists x, In x l /\ p x = false.
Proof.
  rewrite Nat.ltb_lt. induction l as [| x l IH]; cbn [filter List.length].
  - split; [lia | intros (x & [] & _)].
  - pose proof (filter_length_le p l) as Hle.
    destruct (p x) eqn:E; cbn [List.length].
    + split.
      * intro Hlt.
        assert (Hlt' : List.length (filter p l) < List.length l) by lia.
        apply IH in Hlt'. destruct Hlt' as (y & Hy & Hp).
        exists y. split; [now right | exact Hp].
      * intros (y & [<- | Hy] & Hp); [congruence |].
        assert (Hlt' : List.length (filter p l) < List.length l)
          by (apply IH; exists y; auto).
        lia.
    + split; [| lia]. intros _. exists x. split; [now left | exact E].
Qed.

Lemma find_none_iff {A : Type} (p : A -> bool) (l : list A) :
  find p l = None <-> forall x, In x l -> p x = false.
Proof.
  split; [apply find_none |].
  induction l as [| x l IH]; intro H; [reflexivity |].
  cbn [find]. rewrite (H x (or_introl eq_refl)).
  apply IH. intros y Hy. apply H. now right.
Qed.

Lemma find_filter_other (rules : list ModerationRule) (id id' : string) :
  id' <> id ->
  find (fun rule => String.eqb (rule_id rule) id')
       (filter (fun rule => negb (String.eqb (rule_id rule) id)) rules)
  = find (fun rule => String.eqb (rule_id rule) id') rules.
Proof.
  intro Hne. induction rules as [| r rs IH]; [reflexivity |].
  cbn [filter find].
  destruct (String.eqb (rule_id r) id) eqn:E; cbn [negb find].
  - apply String.eqb_eq in E.
    destruct (String.eqb (rule_id r) id') eqn:E'; [| exact IH].
    apply String.eqb_eq in E'. congruence.
  - now destruct (String.eqb (rule_id r) id').
Qed.

Lemma get_rule_assign_same rules id b :
  find (fun rule => String.eqb (rule_id rule) id)
       (RuleEngine.assign_enabled rules id b)
  = option_map (fun rule => RuleEngine.with_enabled rule b)
               (find (fun rule => String.eqb (rule_id rule) id) rules).
Proof.
  induction rules as [| r rs IH]; [reflexivity |].
  cbn [RuleEngine.assign_enabled find].
  destruct (String.eqb (rule_id r) id) eqn:E.
  - cbn [find RuleEngine.with_enabled rule_id]. now rewrite E.
  - cbn [find]. now rewrite E.
Qed.

Lemma get_rule_assign_other rules id id' b :
  id' <> id ->
  find (fun rule => String.eqb (rule_id rule) id')
       (RuleEngine.assign_enabled rules id b)
  = find (fun rule => String.eqb (rule_id rule) id') rules.
Proof.
  intro Hne. induction rules as [| r rs IH]; [reflexivity |].
  cbn [RuleEngine.assign_enabled find].
  destruct (String.eqb (rule_id r) id) eqn:E.
  - apply String.eqb_eq in E. cbn [find RuleEngine.with_enabled rule_id].
    destruct (String.eqb (rule_id r) id') eqn:E'; [| reflexivity].
    apply String.eqb_eq in E'. congruence.
  - cbn [find]. now rewrite IH.
Qed.

Lemma assign_enabled_ids rules id b :
  map rule_id (RuleEngine.assign_enabled rules id b) = map rule_id rules.
Proof.
  induction rules as [| r rs IH]; [reflexivity |].
  cbn [RuleEngine.assign_enabled].
  destruct (String.eqb (rule_id r) id); cbn [map]; [reflexivity |].
  now rewrite IH.
Qed.

Lemma assign_enabled_twice rules id b b' :
  RuleEngine.assign_enabled (RuleEngine.assign_enabled rules id b) id b'
  = RuleEngine.assign_enabled rules id b'.
Proof.
  induction rules as [| r rs IH]; [reflexivity |].
  cbn [RuleEngine.assign_enabled].
  destruct (String.eqb (rule_id r) id) eqn:E;
    cbn [RuleEngine.assign_enabled RuleEngine.with_enabled rule_id];
    rewrite E; [reflexivity |].
  now rewrite IH.
Qed.

Lemma flat_map_same_on {A B : Type} (f g : A -> list B) (l : list A) :
  (forall x, In x l -> f x = g x) -> flat_map f l = flat_map g l.
Proof.
  induction l as [| x l IH]; intro H; [reflexivity |].
  cbn [flat_map]. rewrite (H x (or_introl eq_refl)). f_equal.
  apply IH. intros y Hy. apply H. now right.
Qed.

Lemma flags_of_disabled L request rule :
  Spec.flags_of_rule L request (RuleEngine.with_enabled rule false) = [].
Proof. reflexivity. Qed.

Lemma flat_map_assign_disabled L request id rules :
  NoDup (map rule_id rules) ->
  flat_map (Spec.flags_of_rule L request)
           (RuleEngine.assign_enabled rules id false)
  = filter (Spec.not_of_rule id) (flat_map (Spec.flags_of_rule L request) rules).
Proof.
  induction rules as [| r rs IH]; intro Hnd; [reflexivity |].
  inversion Hnd as [| ? ? Hr Hrs]; subst.
  cbn [RuleEngine.assign_enabled flat_map]. rewrite filter_app.
  destruct (String.eqb (rule_id r) id) eqn:E.
  - apply String.eqb_eq in E. subst id.
    cbn [flat_map]. rewrite flags_of_disabled, not_of_rule_drops.
    cbn [app]. rewrite filter_flat_map.
    symmetry. apply flat_map_same_on. intros r' Hr'.
    apply not_of_rule_keeps. intro Heq. apply Hr. rewrite <- Heq.
    now apply in_map.
  - apply String.eqb_neq in E. cbn [flat_map].
    now rewrite (not_of_rule_keeps L request r id E), (IH Hrs).
Qed.

Lemma flat_map_filter_live {A B : Type} (p : A -> bool) (f : A -> list B) l :
  (forall x, p x = false -> f x = []) ->
  flat_map f (filter p l) = flat_map f l.
Proof.
  intro H. induction l as [| x l IH]; [reflexivity |].
  cbn [filter flat_map]. destruct (p x) eqn:E.
  - cbn [flat_map]. now rewrite IH.
  - now rewrite (H x E), IH.
Qed.

End RuleManagement.

(** X1. [remove_rule] answers true exactly when a rule had the identifier;
    afterwards no rule has it, every other identifier finds the rule it
    found before, and [check_rules] gives the flags it gave before without
    those of type [custom_rule_<id>], the others in place. *)
Theorem remove_rule_spec (engine : RuleEngine.t) (id : string) :
  let after := fst (RuleEngine.remove_rule engine id) in
  (snd (RuleEngine.remove_rule engine id) = true
   <-> exists rule, RuleEngine.get_rule engine id = Some rule)
  /\ RuleEngine.get_rule after id = None
  /\ (forall id', id' <> id ->
      RuleEngine.get_rule after id' = RuleEngine.get_rule engine id')
  /\ (forall L request,
      RuleEngine.check_rules L after request
      = filter (Spec.not_of_rule id) (RuleEngine.check_rules L engine request)).
Proof.
  cbv zeta. unfold RuleEngine.remove_rule, RuleEngine.get_rule.
  cbn [fst snd RuleEngine.rules_of].
  split; [| split; [| split]].
  - rewrite filter_shorter_iff. split.
    + intros (r & Hr & Hp). apply negb_false_iff in Hp.
      destruct (find (fun rule => String.eqb (rule_id rule) id)
                     (RuleEngine.rules_of engine)) as [r' |] eqn:E;
        [now exists r' |].
      rewrite (find_none _ _ E r Hr) in Hp. discriminate Hp.
    + intros (r & Hr). apply find_some in Hr as (Hin & Hid).
      exists r. split; [exact Hin | now rewrite Hid].
  - apply find_none_iff. intros r Hr. apply filter_In in Hr as (_ & Hr).
    now apply negb_true_iff in Hr.
  - intros id' Hne. now apply find_filter_other.
  - intros L request. rewrite !check_rules_flat_map.
    cbn [RuleEngine.rules_of]. rewrite filter_flat_map.
    induction (RuleEngine.rules_of engine) as [| r rs IH]; [reflexivity |].
    cbn [filter flat_map].
    destruct (String.eqb (rule_id r) id) eqn:E; cbn [negb].
    + apply String.eqb_eq in E. subst id.
      now rewrite not_of_rule_drops, IH.
    + apply String.eqb_neq in E. cbn [flat_map].
      now rewrite (not_of_rule_keeps L request r id E), IH.
Qed.

(** X2. [add_rule] puts the rule last: an identifier that already found a
    rule still finds that one, so a rule added under an identifier in use
    is never the one [get_rule] returns, and a new identifier finds the
    added rule; [check_rules] gives the flags it gave before, followed by
    those of the added rule. *)
Theorem add_rule_spec (engine : RuleEngine.t) (rule : ModerationRule) :
  (forall id,
      RuleEngine.get_rule (RuleEngine.add_rule engine rule) id
      = match RuleEngine.get_rule engine id with
        | Some older => Some older
        | None => if String.eqb (rule_id rule) id then Some rule else None
        end)
  /\ (forall L request,
      RuleEngine.check_rules L (RuleEngine.add_rule engine rule) request
      = (RuleEngine.check_rules L engine request
         ++ RuleEngine.check_rules L (RuleEngine.new [rule]) request)%list).
Proof.
  split.
  - intro id. unfold RuleEngine.get_rule, RuleEngine.add_rule, push.
    cbn [RuleEngine.rules_of].
    induction (RuleEngine.rules_of engine) as [| r rs IH]; [reflexivity |].
    cbn [app find]. destruct (String.eqb (rule_id r) id); [reflexivity |].
    exact IH.
  - intros L request. rewrite !check_rules_flat_map.
    unfold RuleEngine.add_rule, RuleEngine.new, push.
    cbn [RuleEngine.rules_of]. rewrite flat_map_app. reflexivity.
Qed.

(** X3. [disable_rule] and [enable_rule] answer true exactly when a rule
    has the identifier; the rule that [get_rule] finds under it is then
    the same rule with [enabled] false, respectively true; every other
    identifier finds what it found before; the identifiers and their order
    stay; and enabling after disabling is enabling. *)
Theorem enable_disable_rule_spec (engine : RuleEngine.t) (id : string) :
  let off := RuleEngine.disable_rule engine id in
  let on := RuleEngine.enable_rule engine id in
  (snd off = true <-> exists rule, RuleEngine.get_rule engine id = Some rule)
  /\ snd on = snd off
  /\ RuleEngine.get_rule (fst off) id
     = option_map (fun rule => RuleEngine.with_enabled rule false)
                  (RuleEngine.get_rule engine id)
  /\ RuleEngine.get_rule (fst on) id
     = option_map (fun rule => RuleEngine.with_enabled rule true)
                  (RuleEngine.get_rule engine id)
  /\ (forall id', id' <> id ->
      RuleEngine.get_rule (fst off) id' = RuleEngine.get_rule engine id'
      /\ RuleEngine.get_rule (fst on) id' = RuleEngine.get_rule engine id')
  /\ map rule_id (RuleEngine.rules_of (fst off))
     = map rule_id (RuleEngine.rules_of engine)
  /\ map rule_id (RuleEngine.rules_of (fst on))
     = map rule_id (RuleEngine.rules_of engine)
  /\ fst (RuleEngine.enable_rule (fst off) id) = fst on.
Proof.
  cbv zeta. unfold RuleEngine.disable_rule, RuleEngine.enable_rule.
  destruct (RuleEngine.get_rule engine id) as [r |] eqn:E.
  - cbn [fst snd]. unfold RuleEngine.get_rule in *.
    cbn [RuleEngine.rules_of].
    rewrite !get_rule_assign_same, E. cbn [option_map fst].
    rewrite !assign_enabled_ids, assign_enabled_twice.
    repeat split; try reflexivity; try (now apply get_rule_assign_other).
    now exists r.
  - cbn [fst snd]. rewrite E. cbn [option_map fst].
    repeat split; try reflexivity; try discriminate.
    intros (r & Hr). discriminate Hr.
Qed.

(** X4. When the identifiers of the rules are pairwise distinct,
    [check_rules] after [disable_rule] gives the flags it gave before
    without those of type [custom_rule_<id>], the others in place. *)
Theorem disable_rule_silences_rule
        (L : Libs) (engine : RuleEngine.t) (id : string)
        (request : ContentModerationRequest) :
  NoDup (map rule_id (RuleEngine.rules_of engine)) ->
  RuleEngine.check_rules L (fst (RuleEngine.disable_rule engine id)) request
  = filter (Spec.not_of_rule id) (RuleEngine.check_rules L engine request).
Proof.
  intro Hnd. unfold RuleEngine.disable_rule.
  destruct (RuleEngine.get_rule engine id) as [r |] eqn:E; cbn [fst].
  - rewrite !check_rules_flat_map. cbn [RuleEngine.rules_of].
    now apply flat_map_assign_disabled.
  - rewrite check_rules_flat_map, filter_flat_map.
    symmetry. apply flat_map_same_on. intros r Hr.
    apply not_of_rule_keeps. intro Heq.
    unfold RuleEngine.get_rule in E.
    pose proof (find_none _ _ E r Hr) as Hf. cbv beta in Hf.
    rewrite Heq, String.eqb_refl in Hf. discriminate Hf.
Qed.

(** X5. [check_rules] consults the enabled rules only, and among them
    those that list the platform: it gives the same flags on the rules of
    [get_enabled_rules], and, for a request on a platform of the
    enumeration, on the rules of [get_rules_for_platform]. *)
Theorem check_rules_on_selected_rules
        (L : Libs) (engine : RuleEngine.t) (request : ContentModerationRequest) :
  RuleEngine.check_rules L engine request
  = RuleEngine.check_rules
      L (RuleEngine.new (RuleEngine.get_enabled_rules engine)) request
  /\ (forall p : PlatformType,
      platform request = PlatformType_value p ->
      RuleEngine.check_rules L engine request
      = RuleEngine.check_rules
          L (RuleEngine.new (RuleEngine.get_rules_for_platform engine p))
          request).
Proof.
  split.
  - rewrite !check_rules_flat_map.
    unfold RuleEngine.new, RuleEngine.get_enabled_rules.
    cbn [RuleEngine.rules_of]. symmetry. apply flat_map_filter_live.
    intros r Hr. unfold Spec.flags_of_rule, Spec.applies. now rewrite Hr.
  - intros p Hp. rewrite !check_rules_flat_map.
    unfold RuleEngine.new, RuleEngine.get_rules_for_platform.
    cbn [RuleEngine.rules_of]. symmetry. apply flat_map_filter_live.
    intros r Hr. unfold Spec.flags_of_rule, Spec.applies.
    unfold RuleEngine.platforms_include in Hr. rewrite Hp, Hr.
    now rewrite andb_false_r.
Qed.

(** ** The verdict ([ModerationEngine]) *)

Section Verdict.

Lemma blocked_iff_high_flag (fs : list ModerationFlag) :
  determine_safe_to_post fs (calculate_overall_severity fs) = false
  <-> exists f, In f fs /\ (severity f = HIGH \/ severity f = CRITICAL).
Proof.
  pose proof (calculate_overall_severity_is_max fs) as Hmax.
  unfold determine_safe_to_post.
  destruct fs as [| f0 fs0].
  - cbn. split; [discriminate |]. intros (f & [] & _).
  - cbn [Spec.is_max_severity] in Hmax.
    destruct Hmax as ((f & Hf & Hs) & Hall). split.
    + intro H. exists f. split; [exact Hf |]. rewrite Hs.
      destruct (calculate_overall_severity (f0 :: fs0)); cbn in H;
        (discriminate H || auto).
    + intros (g & Hg & Hsev). specialize (Hall g Hg).
      destruct (calculate_overall_severity (f0 :: fs0));
        destruct Hsev as [Hsev | Hsev]; rewrite Hsev in Hall;
        cbn in Hall; try contradiction; reflexivity.
Qed.

Lemma tier_replace_iff (fs : list ModerationFlag) (msg : string) :
  Spec.tier_message fs msg ->
  (msg = NOTIFICATION_MESSAGES.RECOMMEND_REPLACE
   <-> Spec.has_severity fs HIGH \/ Spec.has_severity fs CRITICAL).
Proof.
  intro Htier. inversion Htier as [H | H1 H2 H3 | H1 H2 H3 H4 | H]; subst.
  - tauto.
  - split; [discriminate | tauto].
  - split; [discriminate | tauto].
  - split; [discriminate |]. intros [(f & [] & _) | (f & [] & _)].
Qed.

Lemma In_collect_flags_iff (L : Libs) (engine : ModerationEngine.t)
      (request : ContentModerationRequest) (f : ModerationFlag) :
  In f (collect_flags L engine request)
  <-> In f (profanity_flags L engine (content request))
      \/ In f (sentiment_flags L engine (content request))
      \/ In f (toxicity_flags L engine (content request))
      \/ In f (spam_flags L engine (content request))
      \/ In f (personal_info_flags L engine (content request))
      \/ In f (RuleEngine.check_rules L (rule_engine engine) request)
      \/ In f (check_platform_rules request).
Proof.
  unfold collect_flags. cbv zeta. unfold push_all.
  rewrite !in_app_iff. cbn [In]. tauto.
Qed.

Lemma profanity_flags_severity L engine c f :
  In f (profanity_flags L engine c) -> severity f = MEDIUM.
Proof.
  unfold profanity_flags.
  destruct (enable_profanity_detection (config engine)); [| contradiction].
  cbv zeta. destruct (is_profane _); [| contradiction].
  now intros [<- | []].
Qed.

Lemma sentiment_flags_severity L engine c f :
  In f (sentiment_flags L engine c) -> severity f = LOW.
Proof.
  unfold sentiment_flags.
  destruct (enable_sentiment_analysis (config engine)); [| contradiction].
  cbv zeta. destruct (_ <? _)%float; [| contradiction].
  now intros [<- | []].
Qed.

Lemma spam_flags_severity L engine c f :
  In f (spam_flags L engine c) -> severity f = MEDIUM.
Proof.
  unfold spam_flags.
  destruct (enable_spam_detection (config engine)); [| contradiction].
  cbv zeta. destruct (is_spam _); [| contradiction].
  now intros [<- | []].
Qed.

Lemma platform_flags_severity request f :
  In f (check_platform_rules request) -> severity f = LOW.
Proof.
  unfold check_platform_rules. cbv zeta. unfold push.
  destruct (String.eqb (platform request) (PlatformType_value TWITTER)).
  { destruct (280 <? len (content request))%Z; [| contradiction].
    now intros [<- | []]. }
  destruct (String.eqb (platform request) (PlatformType_value INSTAGRAM)).
  { destruct (30 <? _)%nat; [| contradiction]. now intros [<- | []]. }
  destruct (String.eqb (platform request) (PlatformType_value LINKEDIN)).
  { destruct (5 <? _)%nat; [| contradiction]. now intros [<- | []]. }
  contradiction.
Qed.

Lemma toxicity_flags_high L engine c :
  (exists f, In f (toxicity_flags L engine c)
             /\ (severity f = HIGH \/ severity f = CRITICAL))
  <-> enable_toxicity_detection (config engine) = true
      /\ is_toxic (ToxicityDetector.check L c) = true.
Proof.
  unfold toxicity_flags.
  destruct (enable_toxicity_detection (config engine)).
  - cbv zeta. destruct (is_toxic (ToxicityDetector.check L c)).
    + split; [tauto |]. intros _. eexists. split; [now left | now left].
    + split; [intros (f & [] & _) | intros [_ H]; discriminate H].
  - split; [intros (f & [] & _) | intros [H _]; discriminate H].
Qed.

Lemma personal_info_flags_high L engine c :
  (exists f, In f (personal_info_flags L engine c)
             /\ (severity f = HIGH \/ severity f = CRITICAL))
  <-> enable_personal_info_detection (config engine) = true
      /\ has_personal_info (PersonalInfoDetector.check L c) = true.
Proof.
  unfold personal_info_flags.
  destruct (enable_personal_info_detection (config engine)).
  - cbv zeta. destruct (has_personal_info (PersonalInfoDetector.check L c)).
    + split; [tauto |]. intros _. eexists. split; [now left | now left].
    + split; [intros (f & [] & _) | intros [_ H]; discriminate H].
  - split; [intros (f & [] & _) | intros [H _]; discriminate H].
Qed.

End Verdict.

(** X6. A response that is not flagged has no flag, overall severity LOW,
    confidence score 1.0, is safe to post, and recommends the safe message
    alone; a flagged response has at least one flag and never recommends
    the safe message. *)
Theorem unflagged_response_is_clean
        (L : Libs) (engine : ModerationEngine.t) (t0 t1 : Z)
        (request : ContentModerationRequest)
        (response : ContentModerationResponse) :
  moderate_content L engine t0 t1 request = Ok response ->
  (is_flagged response = false ->
   flags response = []
   /\ overall_severity response = LOW
   /\ confidence_score response = 1%float
   /\ safe_to_post response = true
   /\ recommendations response = [NOTIFICATION_MESSAGES.CONTENT_SAFE])
  /\ (is_flagged response = true ->
      flags response <> []
      /\ ~ In NOTIFICATION_MESSAGES.CONTENT_SAFE (recommendations response)).
Proof.
  intro H. apply moderate_content_Ok_inv in H.
  destruct H as (_ & _ & Hfl & Hsev & Hconf & Hsafe & Hrec & _).
  rewrite Hsafe, Hsev, Hconf, Hrec, Hfl.
  destruct (flags response) as [| f fs].
  - split; [intros _; repeat split | discriminate].
  - split; [discriminate |]. intros _. split; [discriminate |].
    destruct (generate_recommendations_spec (f :: fs) (platform request))
      as (msg & tips & -> & Htier & Htips & _).
    intros [Hm | Hin].
    + subst msg. inversion Htier as [? | ? ? ? | ? ? ? ? | Hnil];
        discriminate.
    + destruct Htips as [-> | (tip & Htip & ->)]; [contradiction |].
      destruct Hin as [Heq | []]. subst tip. unfold Spec.platform_tip in Htip.
      destruct (String.eqb (platform request) "twitter");
        [discriminate Htip |].
      destruct (String.eqb (platform request) "instagram");
        [discriminate Htip |].
      destruct (String.eqb (platform request) "linkedin"); discriminate Htip.
Qed.

(** X7. A response is not safe to post exactly when one of its flags is
    HIGH or CRITICAL, and exactly when its first recommendation is the
    replace message. *)
Theorem blocked_iff_replace_recommended
        (L : Libs) (engine : ModerationEngine.t) (t0 t1 : Z)
        (request : ContentModerationRequest)
        (response : ContentModerationResponse) :
  moderate_content L engine t0 t1 request = Ok response ->
  (safe_to_post response = false
   <-> exists f, In f (flags response)
                 /\ (severity f = HIGH \/ severity f = CRITICAL))
  /\ (safe_to_post response = false
      <-> hd_error (recommendations response)
          = Some NOTIFICATION_MESSAGES.RECOMMEND_REPLACE).
Proof.
  intro H. apply moderate_content_Ok_inv in H.
  destruct H as (_ & _ & _ & Hsev & _ & Hsafe & Hrec & _).
  rewrite Hsafe, Hsev, Hrec.
  split; [apply blocked_iff_high_flag |].
  rewrite blocked_iff_high_flag.
  destruct (generate_recommendations_spec (flags response) (platform request))
    as (msg & tips & -> & Htier & _).
  cbn [hd_error]. pose proof (tier_replace_iff _ _ Htier) as Hiff.
  unfold Spec.has_severity in Hiff. split.
  - intros (f & Hf & [Hs | Hs]); f_equal; apply Hiff; [left | right];
      exists f; auto.
  - intro Hm. injection Hm as Hm. apply Hiff in Hm.
    destruct Hm as [(f & Hf & Hs) | (f & Hf & Hs)]; exists f; auto.
Qed.

(** X8. Only three things make a response not safe to post: the toxicity
    detector, when enabled, finding the content toxic; the personal
    information detector, when enabled, finding something; or a custom
    rule of severity HIGH or CRITICAL raising a flag.  Profanity, spam,
    negative sentiment and the platform limits never do. *)
Theorem blocking_sources
        (L : Libs) (engine : ModerationEngine.t) (t0 t1 : Z)
        (request : ContentModerationRequest)
        (response : ContentModerationResponse) :
  moderate_content L engine t0 t1 request = Ok response ->
  (safe_to_post response = false
   <-> (enable_toxicity_detection (config engine) = true
        /\ is_toxic (ToxicityDetector.check L (content request)) = true)
       \/ (enable_personal_info_detection (config engine) = true
           /\ has_personal_info
                (PersonalInfoDetector.check L (content request)) = true)
       \/ (exists f,
              In f (RuleEngine.check_rules L (rule_engine engine) request)
              /\ (severity f = HIGH \/ severity f = CRITICAL))).
Proof.
  intro H. apply moderate_content_Ok_inv in H.
  destruct H as (_ & Hflags & _ & Hsev & _ & Hsafe & _).
  rewrite Hsafe, Hsev, blocked_iff_high_flag, Hflags.
  rewrite <- toxicity_flags_high, <- personal_info_flags_high.
  split.
  - intros (f & Hf & Hs). apply In_collect_flags_iff in Hf.
    destruct Hf as [Hf | [Hf | [Hf | [Hf | [Hf | [Hf | Hf]]]]]].
    + apply profanity_flags_severity in Hf. rewrite Hf in Hs.
      destruct Hs; discriminate.
    + apply sentiment_flags_severity in Hf. rewrite Hf in Hs.
      destruct Hs; discriminate.
    + left. exists f. auto.
    + apply spam_flags_severity in Hf. rewrite Hf in Hs.
      destruct Hs; discriminate.
    + right. left. exists f. auto.
    + right. right. exists f. auto.
    + apply platform_flags_severity in Hf. rewrite Hf in Hs.
      destruct Hs; discriminate.
  - intros [(f & Hf & Hs) | [(f & Hf & Hs) | (f & Hf & Hs)]];
      exists f; (split; [| exact Hs]); apply In_collect_flags_iff; tauto.
Qed.

(** ** Toxicity ([ToxicityDetector]) *)

Section Toxicity.

#[local] Open Scope float_scope.

Variable L : Libs.

Ltac enumerate_levels :=
  repeat match goal with
         | H : In _ (_ :: _) |- _ => destruct H as [<- | H]
         | H : In _ [] |- _ => destruct H
         end.

Lemma Math_max_levels a c :
  In a Spec.toxicity_levels -> In c Spec.toxicity_levels ->
  In (Math_max a c) Spec.toxicity_levels
  /\ gt (Math_max a c) 0.5 = gt a 0.5 || gt c 0.5.
Proof.
  unfold Spec.toxicity_levels. intros Ha Hc. enumerate_levels;
    (split; [vm_compute; tauto | reflexivity]).
Qed.

Lemma toxic_patterns_levels :
  forall pc, In pc ToxicityDetector.toxic_patterns ->
             In (snd pc) Spec.toxicity_levels.
Proof.
  unfold ToxicityDetector.toxic_patterns, Spec.toxicity_levels.
  intros pc H. enumerate_levels; vm_compute; tauto.
Qed.

Lemma fold_raise {A : Type}
      (f : ToxicityDetector.State -> A -> ToxicityDetector.State)
      (cond : A -> bool) (v : A -> float) (xs : list A) :
  (forall st x,
      ToxicityDetector.max_toxicity_score (f st x)
      = if cond x then Math_max (ToxicityDetector.max_toxicity_score st) (v x)
        else ToxicityDetector.max_toxicity_score st) ->
  (forall x, In x xs -> In (v x) Spec.toxicity_levels) ->
  forall st,
    In (ToxicityDetector.max_toxicity_score st) Spec.toxicity_levels ->
    In (ToxicityDetector.max_toxicity_score (fold_left f xs st))
       Spec.toxicity_levels
    /\ gt (ToxicityDetector.max_toxicity_score (fold_left f xs st)) 0.5
       = gt (ToxicityDetector.max_toxicity_score st) 0.5
         || existsb (fun x => cond x && gt (v x) 0.5) xs.
Proof.
  intros Hf. induction xs as [| x xs IH]; intros Hv st Hst.
  - cbn [fold_left existsb]. now rewrite orb_false_r.
  - cbn [fold_left existsb].
    assert (Hx : In (v x) Spec.toxicity_levels) by (apply Hv; now left).
    assert (Hstep :
      In (ToxicityDetector.max_toxicity_score (f st x)) Spec.toxicity_levels
      /\ gt (ToxicityDetector.max_toxicity_score (f st x)) 0.5
         = gt (ToxicityDetector.max_toxicity_score st) 0.5
           || (cond x && gt (v x) 0.5)).
    { rewrite Hf. destruct (cond x).
      - exact (Math_max_levels _ _ Hst Hx).
      - cbn [andb]. now rewrite orb_false_r. }
    destruct Hstep as (Hin & Hgt).
    destruct (IH (fun y Hy => Hv y (or_intror Hy)) (f st x) Hin)
      as (Hin' & Hgt').
    split; [exact Hin' |]. now rewrite Hgt', Hgt, orb_assoc.
Qed.

Lemma existsb_and_true {A : Type} (cond : A -> bool) (xs : list A) :
  existsb (fun x => cond x && true) xs = existsb cond xs.
Proof.
  induction xs as [| x xs IH]; [reflexivity |].
  cbn [existsb]. now rewrite andb_true_r, IH.
Qed.

Lemma is_toxic_strong_signal content :
  is_toxic (ToxicityDetector.check L content) = Spec.strong_signal L content.
Proof.
  unfold ToxicityDetector.check. cbv zeta. cbn [is_toxic].
  match goal with
  | |- context [fold_left ?f ToxicityDetector.sexual_content_patterns ?st] =>
      set (after_patterns :=
             fold_left f ToxicityDetector.sexual_content_patterns st)
  end.
  assert (Hfolds :
    In (ToxicityDetector.max_toxicity_score after_patterns)
       Spec.toxicity_levels
    /\ gt (ToxicityDetector.max_toxicity_score after_patterns) 0.5
       = Spec.strong_signal L content).
  { subst after_patterns. unfold Spec.strong_signal.
    match goal with
    | |- context [fold_left ?f ToxicityDetector.toxic_patterns ?st] =>
        pose proof
          (fold_raise f
             (fun pc : string * float =>
                includes (toLowerCase content) (fst pc))
             snd ToxicityDetector.toxic_patterns
             ltac:(intros st' [p c]; cbn [fst snd];
                   now destruct (includes (toLowerCase content) p))
             toxic_patterns_levels st
             ltac:(vm_compute; tauto)) as (Hin1 & Hgt1)
    end.
    match goal with
    | |- context [fold_left ?f ToxicityDetector.hate_speech_patterns ?st] =>
        pose proof
          (fold_raise f
             (fun p => RegExp_test L (re_i p) content)
             (fun _ => 0.8) ToxicityDetector.hate_speech_patterns
             ltac:(intros st' p; cbv beta;
                   now destruct (RegExp_test L (re_i p) content))
             ltac:(intros x' Hx'; vm_compute; tauto) st Hin1) as (Hin2 & Hgt2)
    end.
    match goal with
    | |- context [fold_left ?f ToxicityDetector.violence_patterns ?st] =>
        pose proof
          (fold_raise f
             (fun p => includes (toLowerCase content) p)
             (fun _ => 0.9) ToxicityDetector.violence_patterns
             ltac:(intros st' p; cbv beta;
                   now destruct (includes (toLowerCase content) p))
             ltac:(intros x' Hx'; vm_compute; tauto) st Hin2) as (Hin3 & Hgt3)
    end.
    match goal with
    | |- context [fold_left ?f ToxicityDetector.sexual_content_patterns ?st] =>
        pose proof
          (fold_raise f
             (fun p => includes (toLowerCase content) p)
             (fun _ => 0.7) ToxicityDetector.sexual_content_patterns
             ltac:(intros st' p; cbv beta;
                   now destruct (includes (toLowerCase content) p))
             ltac:(intros x' Hx'; vm_compute; tauto) st Hin3) as (Hin4 & Hgt4)
    end.
    split; [exact Hin4 |].
    rewrite Hgt4, Hgt3, Hgt2, Hgt1.
    change (gt (ToxicityDetector.max_toxicity_score ToxicityDetector.init) 0.5)
      with false.
    change (gt 0.8 0.5) with true. change (gt 0.9 0.5) with true.
    change (gt 0.7 0.5) with true.
    rewrite !existsb_and_true. reflexivity. }
  destruct Hfolds as (Hin & Hgt).
  assert (Hshout : forall st c,
             In (ToxicityDetector.max_toxicity_score st) Spec.toxicity_levels ->
             In c [0.3; 0.2] ->
             In (ToxicityDetector.max_toxicity_score
                   (ToxicityDetector.raise_general st c))
                Spec.toxicity_levels
             /\ gt (ToxicityDetector.max_toxicity_score
                      (ToxicityDetector.raise_general st c)) 0.5
                = gt (ToxicityDetector.max_toxicity_score st) 0.5).
  { intros st c Hst Hc. cbn [ToxicityDetector.raise_general
                               ToxicityDetector.max_toxicity_score].
    assert (Hc' : In c Spec.toxicity_levels /\ gt c 0.5 = false).
    { destruct Hc as [<- | [<- | []]]; (split; [vm_compute; tauto |]);
        reflexivity. }
    destruct Hc' as (Hc1 & Hc2).
    destruct (Math_max_levels _ _ Hst Hc1) as (H1 & H2).
    split; [exact H1 |]. now rewrite H2, Hc2, orb_false_r. }
  destruct ((3 <? count_chars (Ascii.eqb "!") content)%nat
            || (5 <? count_chars (Ascii.eqb "?") content)%nat);
    destruct (gt (JsNumber.of_nat (count_chars is_upper_AZ content)
                  / JsNumber.of_nat (String.length content)) 0.7
              && (10 <? len content)%Z).
  - destruct (Hshout after_patterns 0.3 Hin (or_introl eq_refl)) as (Ha & Hb).
    destruct (Hshout _ 0.2 Ha (or_intror (or_introl eq_refl))) as (_ & Hd).
    now rewrite Hd, Hb.
  - destruct (Hshout after_patterns 0.2 Hin (or_intror (or_introl eq_refl)))
      as (_ & Hb).
    now rewrite Hb.
  - destruct (Hshout after_patterns 0.3 Hin (or_introl eq_refl)) as (_ & Hb).
    now rewrite Hb.
  - exact Hgt.
Qed.

End Toxicity.

(** X9. A text is toxic exactly when it contains a toxic phrase whose
    confidence is above 0.5, matches a hate-speech template, or contains a
    violence phrase or a sexual-content keyword.  The phrases of confidence
    0.5 ("shut up", "nobody cares"), capital letters and punctuation never
    make a text toxic, alone or together. *)
Theorem toxic_iff_strong_signal (L : Libs) (content : string) :
  is_toxic (ToxicityDetector.check L content) = Spec.strong_signal L content.
Proof. apply is_toxic_strong_signal. Qed.

Section ToxicityCategories.

#[local] Open Scope float_scope.

Variable L : Libs.

Ltac enumerate_members :=
  repeat match goal with
         | H : In _ (_ :: _) |- _ => destruct H as [<- | H]
         | H : In _ [] |- _ => destruct H
         end.

(** The score is the greatest of the four category scores, each category
    having one of its own values. *)
Let categories_ok (st : ToxicityDetector.State) : Prop :=
  let k := ToxicityDetector.cats st in
  In (general_toxicity k) Spec.toxicity_levels
  /\ In (hate_speech k) [0; 0.8]
  /\ In (violence k) [0; 0.9]
  /\ In (sexual_content k) [0; 0.7]
  /\ ToxicityDetector.max_toxicity_score st
     = Math_max (Math_max (Math_max (general_toxicity k) (hate_speech k))
                          (violence k))
                (sexual_content k).

Lemma raise_general_categories st c :
  categories_ok st -> In c Spec.toxicity_levels ->
  categories_ok (ToxicityDetector.raise_general st c).
Proof.
  unfold categories_ok, Spec.toxicity_levels.
  destruct st as [[g h v s] m].
  cbn [ToxicityDetector.raise_general ToxicityDetector.cats
       ToxicityDetector.max_toxicity_score general_toxicity hate_speech
       violence sexual_content].
  intros (Hg & Hh & Hv & Hs & ->) Hc. enumerate_members;
    (repeat split; try (vm_compute; tauto); reflexivity).
Qed.

Lemma raise_hate_speech_categories st :
  categories_ok st -> categories_ok (ToxicityDetector.raise_hate_speech st 0.8).
Proof.
  unfold categories_ok, Spec.toxicity_levels.
  destruct st as [[g h v s] m].
  cbn [ToxicityDetector.raise_hate_speech ToxicityDetector.cats
       ToxicityDetector.max_toxicity_score general_toxicity hate_speech
       violence sexual_content].
  intros (Hg & Hh & Hv & Hs & ->). enumerate_members;
    (repeat split; try (vm_compute; tauto); reflexivity).
Qed.

Lemma raise_violence_categories st :
  categories_ok st -> categories_ok (ToxicityDetector.raise_violence st 0.9).
Proof.
  unfold categories_ok, Spec.toxicity_levels.
  destruct st as [[g h v s] m].
  cbn [ToxicityDetector.raise_violence ToxicityDetector.cats
       ToxicityDetector.max_toxicity_score general_toxicity hate_speech
       violence sexual_content].
  intros (Hg & Hh & Hv & Hs & ->). enumerate_members;
    (repeat split; try (vm_compute; tauto); reflexivity).
Qed.

Lemma raise_sexual_content_categories st :
  categories_ok st ->
  categories_ok (ToxicityDetector.raise_sexual_content st 0.7).
Proof.
  unfold categories_ok, Spec.toxicity_levels.
  destruct st as [[g h v s] m].
  cbn [ToxicityDetector.raise_sexual_content ToxicityDetector.cats
       ToxicityDetector.max_toxicity_score general_toxicity hate_speech
       violence sexual_content].
  intros (Hg & Hh & Hv & Hs & ->). enumerate_members;
    (repeat split; try (vm_compute; tauto); reflexivity).
Qed.

Lemma categories_ok_maximum st :
  categories_ok st ->
  let k := ToxicityDetector.cats st in
  let m := ToxicityDetector.max_toxicity_score st in
  (m = general_toxicity k \/ m = hate_speech k
   \/ m = violence k \/ m = sexual_content k)
  /\ (general_toxicity k <=? m) = true
  /\ (hate_speech k <=? m) = true
  /\ (violence k <=? m) = true
  /\ (sexual_content k <=? m) = true.
Proof.
  unfold categories_ok, Spec.toxicity_levels.
  destruct st as [[g h v s] m].
  cbn [ToxicityDetector.cats ToxicityDetector.max_toxicity_score
       general_toxicity hate_speech violence sexual_content].
  intros (Hg & Hh & Hv & Hs & ->). enumerate_members;
    (repeat split; try (vm_compute; tauto); reflexivity).
Qed.

Lemma check_categories_ok content :
  exists st,
    categories_ok st
    /\ toxicity_score (ToxicityDetector.check L content)
       = ToxicityDetector.max_toxicity_score st
    /\ categories (ToxicityDetector.check L content) = ToxicityDetector.cats st.
Proof.
  unfold ToxicityDetector.check. cbv zeta. cbn [toxicity_score categories].
  match goal with
  | |- context [fold_left ?f ToxicityDetector.sexual_content_patterns ?st] =>
      set (after_patterns :=
             fold_left f ToxicityDetector.sexual_content_patterns st)
  end.
  assert (Hfolds : categories_ok after_patterns).
  { subst after_patterns.
    apply fold_left_invariant.
    { intros st p _ Hst. destruct (includes _ p); [| exact Hst].
      now apply raise_sexual_content_categories. }
    apply fold_left_invariant.
    { intros st p _ Hst. destruct (includes _ p); [| exact Hst].
      now apply raise_violence_categories. }
    apply fold_left_invariant.
    { intros st p _ Hst. destruct (RegExp_test L (re_i p) content);
        [| exact Hst].
      now apply raise_hate_speech_categories. }
    apply fold_left_invariant.
    { intros st [p c] Hin Hst. destruct (includes _ p); [| exact Hst].
      apply raise_general_categories; [exact Hst |].
      exact (toxic_patterns_levels (p, c) Hin). }
    unfold categories_ok, Spec.toxicity_levels. vm_compute.
    repeat split; tauto. }
  eexists. split; [| split; reflexivity].
  destruct ((3 <? count_chars (Ascii.eqb "!") content)%nat
            || (5 <? count_chars (Ascii.eqb "?") content)%nat);
    destruct (gt (JsNumber.of_nat (count_chars is_upper_AZ content)
                  / JsNumber.of_nat (String.length content)) 0.7
              && (10 <? len content)%Z);
    repeat (apply raise_general_categories;
            [| unfold Spec.toxicity_levels; vm_compute; tauto]);
    exact Hfolds.
Qed.

End ToxicityCategories.

(** X10. The toxicity score, which [check] keeps in a variable of its own,
    is the greatest of the four category scores it reports: it equals one
    of them and none is above it.  The hate-speech score is 0 or 0.8, the
    violence score 0 or 0.9, the sexual-content score 0 or 0.7, and the
    general score one of 0, 0.2, 0.3, 0.5, 0.6, 0.7, 0.8, 0.9. *)
Theorem toxicity_score_is_category_maximum (L : Libs) (content : string) :
  let r := ToxicityDetector.check L content in
  let k := categories r in
  (toxicity_score r = general_toxicity k
   \/ toxicity_score r = hate_speech k
   \/ toxicity_score r = violence k
   \/ toxicity_score r = sexual_content k)
  /\ (general_toxicity k <=? toxicity_score r)%float = true
  /\ (hate_speech k <=? toxicity_score r)%float = true
  /\ (violence k <=? toxicity_score r)%float = true
  /\ (sexual_content k <=? toxicity_score r)%float = true
  /\ In (general_toxicity k) Spec.toxicity_levels
  /\ In (hate_speech k) [0; 0.8]%float
  /\ In (violence k) [0; 0.9]%float
  /\ In (sexual_content k) [0; 0.7]%float.
Proof.
  cbv zeta.
  destruct (check_categories_ok L content) as (st & Hok & -> & ->).
  destruct (categories_ok_maximum st Hok) as (H1 & H2 & H3 & H4 & H5).
  destruct Hok as (Hg & Hh & Hv & Hs & _).
  repeat split; assumption.
Qed.

(** ** Personal information ([PersonalInfoDetector]) *)

Section PersonalInfo.

#[local] Open Scope float_scope.

Variable L : Libs.

Ltac enumerate_confidences :=
  repeat match goal with
         | H : In _ (_ :: _) |- _ => destruct H as [<- | H]
         | H : In _ [] |- _ => destruct H
         end.

Lemma String_match_nonempty content pattern found :
  String_match L content pattern = Some found -> found <> [].
Proof.
  unfold String_match.
  destruct (regexp_match_all L (source pattern) (ignore_case pattern) content);
    [discriminate |].
  intro H. injection H as <-. discriminate.
Qed.

Lemma app_nonempty_r {A : Type} (xs ys : list A) : ys <> [] -> (xs ++ ys)%list <> [].
Proof. destruct xs, ys; cbn; congruence. Qed.

(** With something detected the confidence is at least 0.6; with nothing
    detected it is 0 or 0.5. *)
Let pii_levels_ok (st : PersonalInfoDetector.State) : Prop :=
  In (PersonalInfoDetector.acc_confidence st) Spec.pii_levels
  /\ (PersonalInfoDetector.acc_detected st <> [] ->
      (0.6 <=? PersonalInfoDetector.acc_confidence st) = true)
  /\ (PersonalInfoDetector.acc_detected st = [] ->
      In (PersonalInfoDetector.acc_confidence st) [0; 0.5]).

Lemma raise_with_finding (a c : float) :
  In a Spec.pii_levels -> In c [0.6; 0.7; 0.8; 0.9; 0.95] ->
  In (Math_max a c) Spec.pii_levels /\ (0.6 <=? Math_max a c) = true.
Proof.
  unfold Spec.pii_levels. intros Ha Hc. enumerate_confidences;
    (split; [vm_compute; tauto | reflexivity]).
Qed.

Lemma raise_with_keyword (a : float) :
  In a Spec.pii_levels ->
  In (Math_max a 0.5) Spec.pii_levels
  /\ ((0.6 <=? a) = true -> (0.6 <=? Math_max a 0.5) = true)
  /\ (In a [0; 0.5] -> In (Math_max a 0.5) [0; 0.5]).
Proof.
  unfold Spec.pii_levels. intros Ha. enumerate_confidences;
    (split; [vm_compute; tauto | split; [vm_compute; tauto |]]);
    intro H; enumerate_confidences; vm_compute; tauto.
Qed.

Lemma found_ok st found c :
  pii_levels_ok st -> found <> [] -> In c [0.6; 0.7; 0.8; 0.9; 0.95] ->
  forall types,
    pii_levels_ok
      {| PersonalInfoDetector.acc_detected :=
           push_all (PersonalInfoDetector.acc_detected st) found;
         PersonalInfoDetector.acc_types := types;
         PersonalInfoDetector.acc_confidence :=
           Math_max (PersonalInfoDetector.acc_confidence st) c |}.
Proof.
  intros (Hin & _ & _) Hfound Hc types. unfold pii_levels_ok, push_all.
  cbn [PersonalInfoDetector.acc_detected PersonalInfoDetector.acc_confidence].
  destruct (raise_with_finding _ c Hin Hc) as (H1 & H2).
  split; [exact H1 |]. split; [intros _; exact H2 |].
  intro Hnil. exfalso. revert Hnil. now apply app_nonempty_r.
Qed.

Lemma scan_once_levels content pattern kind c st :
  In c [0.6; 0.7; 0.8; 0.9; 0.95] -> pii_levels_ok st ->
  pii_levels_ok (PersonalInfoDetector.scan_once L content pattern kind c st).
Proof.
  intros Hc Hst. unfold PersonalInfoDetector.scan_once.
  destruct (String_match L content pattern) as [found |] eqn:E; [| exact Hst].
  apply found_ok; [exact Hst | | exact Hc].
  exact (String_match_nonempty _ _ _ E).
Qed.

Lemma scan_listed_levels content kind c st pattern :
  In c [0.6; 0.7; 0.8; 0.9; 0.95] -> pii_levels_ok st ->
  pii_levels_ok (PersonalInfoDetector.scan_listed L content kind c st pattern).
Proof.
  intros Hc Hst. unfold PersonalInfoDetector.scan_listed.
  destruct (String_match L content pattern) as [found |] eqn:E; [| exact Hst].
  apply found_ok; [exact Hst | | exact Hc].
  exact (String_match_nonempty _ _ _ E).
Qed.

Lemma scan_name_levels content st pattern :
  pii_levels_ok st ->
  pii_levels_ok (PersonalInfoDetector.scan_name L content st pattern).
Proof.
  intro Hst. unfold PersonalInfoDetector.scan_name.
  destruct (String_match L content pattern) as [names |] eqn:E; [| exact Hst].
  destruct ((1 <? List.length names)%nat || _); [| exact Hst].
  apply found_ok; [exact Hst | | now left].
  exact (String_match_nonempty _ _ _ E).
Qed.

Lemma scan_keyword_levels content st keyword :
  pii_levels_ok st ->
  pii_levels_ok (PersonalInfoDetector.scan_keyword content st keyword).
Proof.
  intros (Hin & Hsome & Hnone). unfold PersonalInfoDetector.scan_keyword.
  destruct (includes _ keyword); [| now repeat split].
  unfold pii_levels_ok.
  cbn [PersonalInfoDetector.acc_detected PersonalInfoDetector.acc_confidence].
  destruct (raise_with_keyword _ Hin) as (H1 & H2 & H3).
  split; [exact H1 |]. split; [intro H; apply H2; now apply Hsome |].
  intro H. apply H3. now apply Hnone.
Qed.

Lemma check_levels content :
  exists st,
    pii_levels_ok st
    /\ pii_confidence (PersonalInfoDetector.check L content)
       = PersonalInfoDetector.acc_confidence st
    /\ has_personal_info (PersonalInfoDetector.check L content)
       = (0 <? List.length (PersonalInfoDetector.acc_detected st))%nat
    /\ detected_info (PersonalInfoDetector.check L content)
       = dedupe (PersonalInfoDetector.acc_detected st)
    /\ info_types (PersonalInfoDetector.check L content)
       = dedupe (PersonalInfoDetector.acc_types st).
Proof.
  unfold PersonalInfoDetector.check. cbv zeta.
  cbn [pii_confidence has_personal_info detected_info info_types].
  eexists. split; [| repeat split; reflexivity].
  apply fold_left_invariant; [intros; now apply scan_keyword_levels |].
  apply fold_left_invariant; [intros; now apply scan_name_levels |].
  apply fold_left_invariant;
    [intros; apply scan_listed_levels; [cbn; tauto | assumption] |].
  apply scan_once_levels; [cbn; tauto |].
  apply scan_once_levels; [cbn; tauto |].
  apply fold_left_invariant;
    [intros; apply scan_listed_levels; [cbn; tauto | assumption] |].
  apply scan_once_levels; [cbn; tauto |].
  unfold pii_levels_ok, Spec.pii_levels.
  cbn [PersonalInfoDetector.acc_detected PersonalInfoDetector.acc_confidence].
  split; [now left |]. split; [congruence | intros _; now left].
Qed.

Lemma dedupe_nil_iff (l : list string) : dedupe l = [] <-> l = [].
Proof.
  destruct l as [| x l]; [tauto |]. cbn. split; discriminate.
Qed.

End PersonalInfo.

(** X11. When the personal-information detector finds something, its
    confidence is between 0.6 and 0.95; when it finds nothing the
    confidence is 0, or 0.5 if a keyword such as "password" occurs, and
    nothing is reported as detected. *)
Theorem personal_info_confidence_range (L : Libs) (content : string) :
  let r := PersonalInfoDetector.check L content in
  (has_personal_info r = true ->
   (0.6 <=? pii_confidence r)%float = true
   /\ (pii_confidence r <=? 0.95)%float = true)
  /\ (has_personal_info r = false ->
      In (pii_confidence r) [0; 0.5]%float /\ detected_info r = []).
Proof.
  cbv zeta.
  destruct (check_levels L content) as (st & (Hin & Hsome & Hnone) & -> & -> & -> & _).
  destruct (PersonalInfoDetector.acc_detected st) as [| x xs] eqn:E.
  - split; [discriminate |]. intros _. split; [now apply Hnone | reflexivity].
  - split; [| discriminate]. intros _.
    split; [apply Hsome; discriminate |].
    unfold Spec.pii_levels in Hin.
    repeat (destruct Hin as [<- | Hin]; [reflexivity |]). destruct Hin.
Qed.

(** X12. The detected items and the information types that the detector
    reports contain no duplicate (also when several keywords push the same
    type), and [has_personal_info] holds exactly when some item is
    reported. *)
Theorem personal_info_report_is_a_set (L : Libs) (content : string) :
  let r := PersonalInfoDetector.check L content in
  NoDup (detected_info r)
  /\ NoDup (info_types r)
  /\ (has_personal_info r = true <-> detected_info r <> []).
Proof.
  cbv zeta.
  destruct (check_levels L content) as (st & _ & _ & -> & -> & ->).
  split; [apply NoDup_dedupe_from |]. split; [apply NoDup_dedupe_from |].
  rewrite dedupe_nil_iff.
  destruct (PersonalInfoDetector.acc_detected st); cbn; split;
    congruence.
Qed.

(** ** Spam indicators ([SpamDetector]) *)

Section SpamIndicators.

#[local] Open Scope float_scope.

Variable L : Libs.

Lemma indicators_if (c : bool) (st : SpamDetector.State) (a : float)
      (m : string) :
  List.length (SpamDetector.acc_indicators
                 (if c then SpamDetector.add st a m else st))
  = (List.length (SpamDetector.acc_indicators st)
     + List.length (if c then [a] else []))%nat.
Proof.
  destruct c; cbn [SpamDetector.add SpamDetector.acc_indicators List.length].
  - unfold push. rewrite length_app. reflexivity.
  - now rewrite Nat.add_0_r.
Qed.

Lemma fold_indicators {A : Type}
      (f : SpamDetector.State -> A -> SpamDetector.State)
      (p : A -> bool) (v : A -> float) :
  (forall st x,
      List.length (SpamDetector.acc_indicators (f st x))
      = (List.length (SpamDetector.acc_indicators st)
         + if p x then 1 else 0)%nat) ->
  forall xs st,
    List.length (SpamDetector.acc_indicators (fold_left f xs st))
    = (List.length (SpamDetector.acc_indicators st)
       + List.length (map v (filter p xs)))%nat.
Proof.
  intros Hf xs. induction xs as [| x xs IH]; intro st.
  - cbn. now rewrite Nat.add_0_r.
  - cbn [fold_left filter]. rewrite IH, Hf.
    destruct (p x); cbn [map List.length]; lia.
Qed.

Lemma add_indicator_length st a m :
  List.length (SpamDetector.acc_indicators (SpamDetector.add st a m))
  = (List.length (SpamDetector.acc_indicators st) + 1)%nat.
Proof.
  cbn [SpamDetector.add SpamDetector.acc_indicators]. unfold push.
  now rewrite length_app.
Qed.

Lemma indicators_count content :
  List.length (spam_indicators (SpamDetector.check L content))
  = List.length (Spec.fired_signals L content).
Proof.
  unfold SpamDetector.check. cbv zeta. cbn [spam_indicators].
  unfold Spec.fired_signals. rewrite !length_app.
  rewrite indicators_if. fold (Spec.suspicious_signal L content).
  rewrite (fold_indicators _ (fun wc : string * nat => (3 <? snd wc)%nat)
                           (fun _ => 0.2))
    by (intros st [w c]; cbn [snd]; destruct (3 <? c)%nat;
        [apply add_indicator_length | now rewrite Nat.add_0_r]).
  rewrite repetition_signals_of_map.
  rewrite indicators_if. fold (Spec.punctuation_signal content).
  rewrite indicators_if. fold (Spec.capitalization_signal content).
  rewrite indicators_if. fold (Spec.url_signal L content).
  rewrite (fold_indicators _ (fun pc : string * float =>
                                includes (toLowerCase content) (fst pc)) snd)
    by (intros st [w c]; cbn [fst snd];
        destruct (includes (toLowerCase content) w);
        [apply add_indicator_length | now rewrite Nat.add_0_r]).
  unfold Spec.phrase_signals. cbn [SpamDetector.acc_indicators List.length].
  lia.
Qed.

End SpamIndicators.

(** X13. [SpamDetector.check] reports one indicator for each signal that
    fires.  When no signal fires the score is 0 and the text is not spam;
    so a text reported as spam always comes with at least one indicator. *)
Theorem spam_indicators_explain_score (L : Libs) (content : string) :
  let r := SpamDetector.check L content in
  List.length (spam_indicators r) = List.length (Spec.fired_signals L content)
  /\ (Spec.fired_signals L content = [] ->
      spam_score r = 0%float /\ is_spam r = false)
  /\ (is_spam r = true -> spam_indicators r <> []).
Proof.
  cbv zeta.
  assert (Hquiet : Spec.fired_signals L content = [] ->
                   spam_score (SpamDetector.check L content) = 0%float
                   /\ is_spam (SpamDetector.check L content) = false).
  { intro Hnil.
    change (is_spam (SpamDetector.check L content))
      with (gt (spam_score (SpamDetector.check L content)) 0.6).
    rewrite acc_score_check, Hnil. split; reflexivity. }
  split; [apply indicators_count |]. split; [exact Hquiet |].
  intros Hspam Hnil.
  assert (Hfired : Spec.fired_signals L content = []).
  { apply length_zero_iff_nil. rewrite <- indicators_count, Hnil.
    reflexivity. }
  destruct (Hquiet Hfired) as (_ & Hno). congruence.
Qed.

(** ** Sentiment helpers ([SentimentAnalyzer]) *)

Section SentimentHelpers.

#[local] Open Scope float_scope.

Lemma ltb_asym a b : (a <? b) = true -> (b <? a) = false.
Proof.
  rewrite !ltb_spec. unfold SFltb.
  rewrite (SFcompare_antisym (Prim2SF a) (Prim2SF b)).
  now destruct (SFcompare (Prim2SF a) (Prim2SF b)) as [[] |].
Qed.

Lemma ltb_irrefl a : (a <? a) = false.
Proof.
  rewrite ltb_spec. unfold SFltb.
  destruct (Prim2SF a) as [s | s | | s m e] eqn:E; try reflexivity.
  - now destruct s.
  - rewrite SFcompare_refl; [reflexivity | discriminate].
Qed.

Lemma ltb_nan_r a : (a <? nan) = false.
Proof.
  rewrite ltb_spec. unfold SFltb. change (Prim2SF nan) with S754_nan.
  now destruct (Prim2SF a).
Qed.

Lemma ltb_nan_l a : (nan <? a) = false.
Proof. rewrite ltb_spec. unfold SFltb. now change (Prim2SF nan) with S754_nan. Qed.

(** [Math.min(a, b)] is never above [b]. *)
Lemma Math_min_not_above a b : gt (Math_min a b) b = false.
Proof.
  unfold gt, Math_min.
  destruct (PrimFloat.is_nan a || PrimFloat.is_nan b); [apply ltb_nan_r |].
  destruct (a <? b) eqn:E1; [now apply ltb_asym |].
  destruct (b <? a) eqn:E2; [apply ltb_irrefl |].
  destruct (is_neg_zero b); [apply ltb_irrefl | exact E2].
Qed.

(** Not a number, or not negative. *)
Let unsigned (f : spec_float) : Prop :=
  match f with
  | S754_nan => True
  | S754_zero _ => True
  | S754_infinity s => s = false
  | S754_finite s _ _ => s = false
  end.

Lemma unsigned_not_below_zero x :
  unsigned (Prim2SF x) -> (x <? 0) = false.
Proof.
  rewrite ltb_spec. unfold SFltb. change (Prim2SF 0) with (S754_zero false).
  destruct (Prim2SF x) as [s | s | | s m e]; cbn; intro H; subst;
    reflexivity.
Qed.

Lemma abs_over_ten_unsigned x : unsigned (Prim2SF (abs x / 10)).
Proof.
  rewrite div_spec, abs_spec. unfold SF64div, SFdiv.
  change (Prim2SF 10) with (S754_finite false 5629499534213120 (-49)).
  destruct (Prim2SF x) as [s | s | | s m e]; cbn [SFabs unsigned xorb];
    try easy.
  destruct (SFdiv_core_binary prec emax (Z.pos m) e
                              (Z.pos 5629499534213120) (-49))
    as [[mz ez] lz].
  unfold binary_round_aux.
  destruct (shr_fexp prec emax mz ez lz) as [mrs' e'].
  destruct (shr_fexp prec emax
                     (round_nearest_even (shr_m mrs') (loc_of_shr_record mrs'))
                     e' loc_Exact) as [mrs'' e''].
  destruct (shr_m mrs''); try easy.
  match goal with |- context [if ?c then _ else _] => destruct c end; easy.
Qed.

Lemma Math_min_not_below_zero a :
  (a <? 0) = false -> (Math_min a 1 <? 0) = false.
Proof.
  intro Ha. unfold Math_min.
  destruct (PrimFloat.is_nan a || PrimFloat.is_nan 1); [apply ltb_nan_l |].
  destruct (a <? 1); [exact Ha |].
  destruct (1 <? a); [reflexivity |].
  change (is_neg_zero 1) with false. exact Ha.
Qed.

Lemma SFltb_trans x y z :
  SFltb x y = true -> SFltb y z = true -> SFltb x z = true.
Proof.
  unfold SFltb, SFcompare.
  destruct x as [sx | sx | | sx mx ex], y as [sy | sy | | sy my ey],
    z as [sz | sz | | sz mz ez];
    try discriminate; try reflexivity;
    repeat match goal with s : bool |- _ => destruct s end;
    try discriminate; try reflexivity;
    change (Pos.compare_cont Eq) with Pos.compare;
    destruct (Z.compare_spec ex ey), (Z.compare_spec ey ez),
      (Z.compare_spec ex ez);
    try discriminate; try reflexivity; try lia; subst;
    destruct (Pos.compare_spec mx my), (Pos.compare_spec my mz),
      (Pos.compare_spec mx mz);
    cbn; try discriminate; try reflexivity; try lia.
Qed.

Lemma ltb_trans a b c : (a <? b) = true -> (b <? c) = true -> (a <? c) = true.
Proof. rewrite !ltb_spec. apply SFltb_trans. Qed.

Lemma eqb_zero_cases x : (x =? 0) = true -> exists s, Prim2SF x = S754_zero s.
Proof.
  rewrite eqb_spec. unfold SFeqb. change (Prim2SF 0) with (S754_zero false).
  destruct (Prim2SF x) as [s | s | | s m e]; cbn; try discriminate;
    try (destruct s; discriminate).
  intros _. now exists s.
Qed.

End SentimentHelpers.

(** X14. [get_sentiment_confidence] is never above 1 and never below 0,
    whatever the score, infinities and NaN included. *)
Theorem sentiment_confidence_stays_in_unit (score : float) :
  gt (SentimentAnalyzer.get_sentiment_confidence score) 1 = false
  /\ (SentimentAnalyzer.get_sentiment_confidence score <? 0)%float = false.
Proof.
  unfold SentimentAnalyzer.get_sentiment_confidence, Math_abs. split.
  - apply Math_min_not_above.
  - apply Math_min_not_below_zero. apply unsigned_not_below_zero.
    apply abs_over_ten_unsigned.
Qed.

Section SentimentCategory.

#[local] Open Scope float_scope.

Lemma is_nan_true_spec x : PrimFloat.is_nan x = true -> Prim2SF x = S754_nan.
Proof.
  intro H. destruct (Prim2SF x) as [s | s | | s m e] eqn:E; try reflexivity;
    exfalso;
    assert (Hn : PrimFloat.is_nan x = false)
      by (apply is_nan_false_iff; rewrite E; discriminate);
    congruence.
Qed.

Lemma nan_compares_false x y :
  PrimFloat.is_nan x = true ->
  (x <? y) = false /\ (y <? x) = false /\ (x =? y) = false.
Proof.
  intro H. apply is_nan_true_spec in H.
  rewrite !ltb_spec, eqb_spec. unfold SFltb, SFeqb. rewrite H.
  repeat split; try reflexivity. now destruct (Prim2SF y).
Qed.

Lemma category_of_zero s :
  (s =? 0) = true ->
  SentimentAnalyzer.get_sentiment_category s = "neutral".
Proof.
  intro H. unfold SentimentAnalyzer.get_sentiment_category, gt.
  rewrite H. destruct (eqb_zero_cases s H) as (b & Hb).
  rewrite !ltb_spec, Hb.
  change (SFltb (Prim2SF 2) (S754_zero b)) with false.
  change (SFltb (Prim2SF 0) (S754_zero b)) with false.
  reflexivity.
Qed.

Lemma category_neutral_only_zero s :
  SentimentAnalyzer.get_sentiment_category s = "neutral" -> (s =? 0) = true.
Proof.
  unfold SentimentAnalyzer.get_sentiment_category.
  destruct (gt s 2); [discriminate |].
  destruct (gt s 0); [discriminate |].
  destruct (s =? 0); [reflexivity |].
  destruct (gt s (-2)); discriminate.
Qed.

Lemma category_of_overly_positive s :
  SentimentAnalyzer.is_overly_positive s = true ->
  SentimentAnalyzer.get_sentiment_category s = "very_positive".
Proof.
  unfold SentimentAnalyzer.is_overly_positive,
    SentimentAnalyzer.get_sentiment_category, gt.
  intro H. now rewrite (ltb_trans 2 5 s eq_refl H).
Qed.

Lemma category_of_overly_negative s :
  SentimentAnalyzer.is_overly_negative s = true ->
  SentimentAnalyzer.get_sentiment_category s = "very_negative".
Proof.
  unfold SentimentAnalyzer.is_overly_negative,
    SentimentAnalyzer.get_sentiment_category, gt.
  intro H.
  assert (Hbelow : forall c, (-3 <? c) = true -> (c <? s) = false).
  { intros c Hc. destruct (c <? s) eqn:E; [| reflexivity].
    pose proof (ltb_trans _ _ _ (ltb_trans _ _ _ Hc E) H) as Habs.
    now rewrite ltb_irrefl in Habs. }
  rewrite (Hbelow 2 eq_refl), (Hbelow 0 eq_refl), (Hbelow (-2) eq_refl).
  destruct (s =? 0) eqn:E; [| reflexivity].
  destruct (eqb_zero_cases s E) as (b & Hb).
  rewrite ltb_spec, Hb in H. now destruct b.
Qed.

End SentimentCategory.

(** X15. The sentiment helpers agree with each other: a score that
    [is_overly_positive] (above 5) is "very_positive", one that
    [is_overly_negative] (below -3) is "very_negative", and "neutral" is
    the category of the scores equal to 0 and of no other.  A score that is
    not a number is "very_negative", although it is not overly negative. *)
Theorem sentiment_categories_consistent (score : float) :
  (SentimentAnalyzer.is_overly_positive score = true ->
   SentimentAnalyzer.get_sentiment_category score = "very_positive")
  /\ (SentimentAnalyzer.is_overly_negative score = true ->
      SentimentAnalyzer.get_sentiment_category score = "very_negative")
  /\ (SentimentAnalyzer.get_sentiment_category score = "neutral"
      <-> (score =? 0)%float = true)
  /\ (PrimFloat.is_nan score = true ->
      SentimentAnalyzer.get_sentiment_category score = "very_negative"
      /\ SentimentAnalyzer.is_overly_negative score = false).
Proof.
  split; [apply category_of_overly_positive |].
  split; [apply category_of_overly_negative |].
  split; [split; [apply category_neutral_only_zero | apply category_of_zero] |].
  intro Hnan.
  unfold SentimentAnalyzer.get_sentiment_category,
    SentimentAnalyzer.is_overly_negative, gt.
  destruct (nan_compares_false score 2 Hnan) as (_ & -> & _).
  destruct (nan_compares_false score 0 Hnan) as (_ & -> & ->).
  destruct (nan_compares_false score (-2) Hnan) as (_ & -> & _).
  destruct (nan_compares_false score (-3) Hnan) as (-> & _ & _).
  split; reflexivity.
Qed.

(** ** The HTTP handlers ([index.ts]) *)

Section Handlers.

Variable L : Libs.
Variable engine : ModerationEngine.t.
Variables t0 t1 : Z.




End Handlers.



(** ** Edge cases of the rule patterns and of [clean_content] *)

Lemma includes_empty (s : string) : includes s "" = true.
Proof. destruct s; reflexivity. Qed.

Lemma flags_of_patterns_member L request rule ps p text :
  In p ps -> Spec.pattern_match L request p = Some text ->
  In (RuleEngine.rule_flag rule text) (Spec.flags_of_patterns L request rule ps).
Proof.
  induction ps as [| q ps IH]; [contradiction |].
  intros [-> | Hin] Hm; cbn [Spec.flags_of_patterns].
  - rewrite Hm. now left.
  - destruct (Spec.pattern_match L request q); [right |]; now apply IH.
Qed.

(** X18. An empty pattern matches every content: a rule that is enabled,
    lists the platform of the request and has the empty string among its
    patterns raises a flag on every request, whatever it says. *)
Theorem empty_pattern_always_flags
        (L : Libs) (engine : RuleEngine.t) (rule : ModerationRule)
        (request : ContentModerationRequest) :
  In rule (RuleEngine.rules_of engine) ->
  rule_enabled rule = true ->
  RuleEngine.platforms_include rule (platform request) = true ->
  In "" (rule_patterns rule) ->
  In (RuleEngine.rule_flag rule "")
     (RuleEngine.check_rules L engine request).
Proof.
  intros Hrule Hen Hpf Hp. rewrite check_rules_flat_map.
  apply in_flat_map. exists rule. split; [exact Hrule |].
  unfold Spec.flags_of_rule, Spec.applies.
  unfold RuleEngine.platforms_include in Hpf. rewrite Hen, Hpf. cbn [andb].
  apply (flags_of_patterns_member L request rule _ ""); [exact Hp |].
  unfold Spec.pattern_match.
  change (RuleEngine.is_regex_delimited "") with false.
  change (toLowerCase "") with "". now rewrite includes_empty.
Qed.

Section Trim.

Lemma list_of_append (a b : string) :
  list_ascii_of_string (a ++ b)
  = (list_ascii_of_string a ++ list_ascii_of_string b)%list.
Proof. induction a as [| c a IH]; [reflexivity |]. cbn. now rewrite IH. Qed.

Lemma string_of_app (a b : list ascii) :
  string_of_list_ascii (a ++ b)
  = string_of_list_ascii a ++ string_of_list_ascii b.
Proof. induction a as [| c a IH]; [reflexivity |]. cbn. now rewrite IH. Qed.

Lemma rev_rev (s : string) : rev (rev s) = s.
Proof.
  unfold rev. rewrite list_ascii_of_string_of_list_ascii, rev_involutive.
  apply string_of_list_ascii_of_string.
Qed.

Lemma rev_append (a b : string) : rev (a ++ b) = rev b ++ rev a.
Proof. unfold rev. now rewrite list_of_append, rev_app_distr, string_of_app. Qed.

Lemma trimStart_head (s : string) :
  Spec.starts_with_space (trimStart s) = false.
Proof.
  induction s as [| c s IH]; [reflexivity |].
  cbn [trimStart]. destruct (is_space c) eqn:E; [exact IH |].
  cbn. exact E.
Qed.

Lemma trimStart_suffix (s : string) : exists ws, s = ws ++ trimStart s.
Proof.
  induction s as [| c s (ws & IH)]; [now exists "" |].
  cbn [trimStart]. destruct (is_space c).
  - exists (String c ws). cbn. now rewrite <- IH.
  - now exists "".
Qed.

Lemma trim_ends (s : string) :
  Spec.starts_with_space (trim s) = false
  /\ Spec.ends_with_space (trim s) = false.
Proof.
  unfold Spec.ends_with_space, trim. rewrite rev_rev.
  split; [| apply trimStart_head].
  destruct (trimStart_suffix (rev (trimStart s))) as (ws & Hws).
  apply (f_equal rev) in Hws. rewrite rev_rev, rev_append in Hws.
  pose proof (trimStart_head s) as Hhead. rewrite Hws in Hhead.
  destruct (rev (trimStart (rev (trimStart s)))); [reflexivity |].
  exact Hhead.
Qed.

Lemma trimStart_fixed (s : string) :
  Spec.starts_with_space s = false -> trimStart s = s.
Proof. destruct s as [| c s]; [reflexivity |]. cbn. now intros ->. Qed.

Lemma trim_fixed (s : string) :
  Spec.starts_with_space s = false -> Spec.ends_with_space s = false ->
  trim s = s.
Proof.
  intros H1 H2. unfold trim, Spec.ends_with_space in *.
  now rewrite (trimStart_fixed s H1), (trimStart_fixed _ H2), rev_rev.
Qed.

End Trim.

(** X19. The [clean_content] that [SpamDetector.check] reports neither
    starts nor ends with white space, and trimming it again changes
    nothing. *)
Theorem clean_content_is_trimmed (L : Libs) (content : string) :
  let cleaned := clean_content (SpamDetector.check L content) in
  Spec.starts_with_space cleaned = false
  /\ Spec.ends_with_space cleaned = false
  /\ trim cleaned = cleaned.
Proof.
  cbv zeta.
  assert (E : clean_content (SpamDetector.check L content)
              = SpamDetector.clean_content_of L content) by reflexivity.
  rewrite E. unfold SpamDetector.clean_content_of. cbv zeta.
  match goal with
  | |- context [trim ?x] => destruct (trim_ends x) as (H1 & H2)
  end.
  split; [exact H1 |]. split; [exact H2 |]. now apply trim_fixed.
Qed.

(** ** Closed instances of the further properties *)

(** X4 at two rules with identifiers r1 and r2. *)
Lemma disable_rule_silences_rule_witness :
  RuleEngine.check_rules
    Reference.libs
    (fst (RuleEngine.disable_rule
            (RuleEngine.new [Reference.hate_rule; Reference.careless_rule])
            "r1"))
    (Reference.request "I hate it" "twitter")
  = filter (Spec.not_of_rule "r1")
           (RuleEngine.check_rules
              Reference.libs
              (RuleEngine.new [Reference.hate_rule; Reference.careless_rule])
              (Reference.request "I hate it" "twitter")).
Proof.
  apply (disable_rule_silences_rule
           Reference.libs
           (RuleEngine.new [Reference.hate_rule; Reference.careless_rule])
           "r1" (Reference.request "I hate it" "twitter")).
  cbn. constructor; [intros [H | []]; discriminate H |].
  constructor; [intros [] | constructor].
Defined.

(** Without distinct identifiers [disable_rule] reaches the first rule
    only: the second rule r1 goes on raising its flags. *)
Example disable_rule_with_duplicate_identifier :
  RuleEngine.check_rules
    Reference.libs
    (fst (RuleEngine.disable_rule
            (RuleEngine.new [Reference.hate_rule; Reference.hate_rule]) "r1"))
    (Reference.request "I hate it" "twitter")
  = [RuleEngine.rule_flag Reference.hate_rule "HATE";
     RuleEngine.rule_flag Reference.hate_rule "hat"].
Proof. vm_compute. reflexivity. Qed.

(** X6 at the response to "hello world". *)
Lemma unflagged_response_is_clean_witness :
  (is_flagged Reference.quiet_response = false ->
   flags Reference.quiet_response = []
   /\ overall_severity Reference.quiet_response = LOW
   /\ confidence_score Reference.quiet_response = 1%float
   /\ safe_to_post Reference.quiet_response = true
   /\ recommendations Reference.quiet_response
      = [NOTIFICATION_MESSAGES.CONTENT_SAFE])
  /\ (is_flagged Reference.quiet_response = true ->
      flags Reference.quiet_response <> []
      /\ ~ In NOTIFICATION_MESSAGES.CONTENT_SAFE
              (recommendations Reference.quiet_response)).
Proof.
  apply (unflagged_response_is_clean
           Reference.libs (new Reference.default_config) 0 5
           Reference.quiet_request Reference.quiet_response).
  vm_compute. reflexivity.
Defined.

(** X7 at the response to "hate". *)
Lemma blocked_iff_replace_recommended_witness :
  (safe_to_post Reference.hate_response = false
   <-> exists f, In f (flags Reference.hate_response)
                 /\ (severity f = HIGH \/ severity f = CRITICAL))
  /\ (safe_to_post Reference.hate_response = false
      <-> hd_error (recommendations Reference.hate_response)
          = Some NOTIFICATION_MESSAGES.RECOMMEND_REPLACE).
Proof.
  apply (blocked_iff_replace_recommended
           Reference.libs (new Reference.default_config) 0 5
           Reference.hate_request Reference.hate_response).
  vm_compute. reflexivity.
Defined.

(** X8 at the response to "hate". *)
Lemma blocking_sources_witness :
  safe_to_post Reference.hate_response = false
  <-> (enable_toxicity_detection
         (config (new Reference.default_config)) = true
       /\ is_toxic (ToxicityDetector.check
                      Reference.libs (content Reference.hate_request)) = true)
      \/ (enable_personal_info_detection
            (config (new Reference.default_config)) = true
          /\ has_personal_info
               (PersonalInfoDetector.check
                  Reference.libs (content Reference.hate_request)) = true)
      \/ (exists f,
             In f (RuleEngine.check_rules
                     Reference.libs
                     (rule_engine (new Reference.default_config))
                     Reference.hate_request)
             /\ (severity f = HIGH \/ severity f = CRITICAL)).
Proof.
  apply (blocking_sources
           Reference.libs (new Reference.default_config) 0 5
           Reference.hate_request Reference.hate_response).
  vm_compute. reflexivity.
Defined.

(** X18 at a rule with an empty pattern. *)
Lemma empty_pattern_always_flags_witness :
  In (RuleEngine.rule_flag Reference.careless_rule "")
     (RuleEngine.check_rules
        Reference.libs (RuleEngine.new [Reference.careless_rule])
        (Reference.request "good morning" "twitter")).
Proof.
  apply (empty_pattern_always_flags
           Reference.libs (RuleEngine.new [Reference.careless_rule])
           Reference.careless_rule
           (Reference.request "good morning" "twitter")).
  - left. reflexivity.
  - reflexivity.
  - reflexivity.
  - right. left. reflexivity.
Defined.
